(** * APIS edge camera layer: capture devices, factory and supervisor

    A shallow embedding of the camera abstraction of the APIS edge device
    ([camera/base.py], [camera/usb.py], [camera/picamera.py],
    [camera/__init__.py]) and of the capture supervisor ([main.py]).

    Conventions of the embedding.
    - Python [int] is [Z]; readings of [time.time()] are rationals ([Q]):
      every float is a rational, and the one division of the code is taken
      exactly.
    - A method is a computation in the monad [M St A := St -> call A * St]:
      it returns a value or raises, and -- as in Python -- the state reached
      when an exception is raised is kept, not rolled back.
    - What the native libraries (cv2, picamera2, libcamera) and the clock
      answer during one method call is an explicit argument of the method,
      a record with one outcome per native call.
    - The driver side is a [world]: the handles that were acquired and on
      which the releasing call has not been invoked yet.  Python's garbage
      collector is not modelled: only the calls the code makes count.
      [cap.isOpened()] is a driver call like the others: whether it returns
      or raises is one of the outcomes, and when it returns it answers
      whether the capture holds its device.
    - The abstract base class [Camera] is a type class with one instance
      per backend; a sequence of calls on a device is a list of [op]. *)

From Stdlib Require Import String ZArith QArith Bool Lia List.
Import ListNotations.
Open Scope Z_scope.

Set Implicit Arguments.

(** ** Exceptions and the state-and-exception monad *)

(** Exceptions (subclasses of [Exception]).  The handlers of the code tell
    [ImportError] from the rest; the factory raises [ValueError]. *)
Inductive exn : Type :=
| ImportError
| ValueError (msg : string)
| OtherError.

(** Outcome of a call: a value, or an exception raised. *)
Inductive call (A : Type) : Type :=
| Ret (a : A)
| Raise (e : exn).
Arguments Ret {A} a.
Arguments Raise {A} e.

Definition M (St A : Type) : Type := St -> call A * St.

Definition ret {St A} (a : A) : M St A := fun s => (Ret a, s).

Definition raise {St A} (e : exn) : M St A := fun s => (Raise e, s).

Definition bind {St A B} (m : M St A) (k : A -> M St B) : M St B :=
  fun s =>
    match m s with
    | (Ret a, s') => k a s'
    | (Raise e, s') => (Raise e, s')
    end.

(** [try: body / except <class> as e: handler e]. *)
Definition try_except {St A} (body : M St A) (handler : exn -> M St A) : M St A :=
  fun s =>
    match body s with
    | (Ret a, s') => (Ret a, s')
    | (Raise e, s') => handler e s'
    end.

Definition gets {St A} (f : St -> A) : M St A := fun s => (Ret (f s), s).

Definition modify {St} (f : St -> St) : M St unit := fun s => (Ret tt, f s).

(** A native call whose outcome the environment fixed. *)
Definition native {St A} (c : call A) : M St A := fun s => (c, s).

Declare Scope py_scope.
Delimit Scope py_scope with py.
Notation "x <- m ;; k" := (bind m (fun x => k))
  (at level 61, m at next level, right associativity) : py_scope.
Notation "m ;; k" := (bind m (fun _ => k))
  (at level 61, right associativity) : py_scope.
Open Scope py_scope.

(** ** The driver side *)

Definition handle : Type := nat.

(** [live]: handles acquired from a driver whose releasing call
    ([VideoCapture.release], [Picamera2.close]) has not been invoked.
    [next_handle]: identity of the next object a constructor returns. *)
Record world : Type := {
  live : list handle;
  next_handle : handle
}.

Definition world0 : world := {| live := []; next_handle := 0%nat |}.

Definition is_live (h : handle) (w : world) : bool :=
  existsb (Nat.eqb h) (live w).

(** A constructor hands out a new object; it holds a device when
    [acquired]. *)
Definition alloc (acquired : bool) (w : world) : handle * world :=
  (next_handle w,
   {| live := if acquired then next_handle w :: live w else live w;
      next_handle := S (next_handle w) |}).

Definition forget (h : handle) (w : world) : world :=
  {| live := filter (fun h' => negb (Nat.eqb h h')) (live w);
     next_handle := next_handle w |}.

(** ** Pixel buffers and Python list slicing *)

(** A numpy array: its [shape] tuple and its elements in row-major order. *)
Record ndarray : Type := {
  shape : list nat;
  flat : list Z
}.

Fixpoint chunks_fuel (fuel n : nat) (l : list Z) : list (list Z) :=
  match fuel with
  | O => []
  | S fuel' =>
      match l with
      | [] => []
      | _ => firstn n l :: chunks_fuel fuel' n (skipn n l)
      end
  end.

Definition chunks (n : nat) (l : list Z) : list (list Z) :=
  chunks_fuel (length l) n l.

(** [a[:, :, ::-1].copy()]: the third axis reversed; [IndexError] when the
    array has fewer than three axes. *)
Definition reverse_axis2 (a : ndarray) : call ndarray :=
  match shape a with
  | _ :: _ :: c :: rest =>
      let block := fold_right Nat.mul 1%nat rest in
      Ret {| shape := shape a;
             flat := concat (map (fun g => concat (rev (chunks block g)))
                                 (chunks (c * block) (flat a))) |}
  | _ => Raise OtherError
  end.

(** [l[start:]] for a Python list. *)
Definition slice_from {A} (start : Z) (l : list A) : list A :=
  let len := Z.of_nat (length l) in
  let i := if start <? 0 then Z.max 0 (len + start) else Z.min start len in
  skipn (Z.to_nat i) l.

(** [int(x)] on a float: truncation toward zero. *)
Definition int_of_float (x : Q) : Z := Z.quot (Qnum x) (Zpos (Qden x)).

Definition Qpositive (x : Q) : bool := 0 <? Qnum x.

(** ** camera/base.py *)

Module Frame.

Record t : Type := {
  data : ndarray;
  timestamp : string;
  sequence : Z;
  width : nat;
  height : nat
}.

(** [Frame.create(data, sequence, timestamp=None)].  A [datetime] is
    represented by its [isoformat()]; [now] is what [datetime.now()]
    answers.  [height, width = data.shape[:2]] raises [ValueError] when
    the array has fewer than two axes. *)
Definition create (data : ndarray) (sequence : Z) (timestamp : option string)
           (now : string) : call t :=
  let timestamp := match timestamp with None => now | Some ts => ts end in
  match firstn 2 (shape data) with
  | [height; width] =>
      Ret {| data := data; timestamp := timestamp; sequence := sequence;
             width := width; height := height |}
  | _ => Raise (ValueError "not enough values to unpack")
  end.

End Frame.

(** The timing update shared by both [read()] methods:
<<
    self._frame_times.append(now)
    if len(self._frame_times) > self._fps_window:
        self._frame_times = self._frame_times[-self._fps_window:]
    if len(self._frame_times) >= 2:
        elapsed = self._frame_times[-1] - self._frame_times[0]
        if elapsed > 0:
            self._measured_fps = (len(self._frame_times) - 1) / elapsed
>> *)
Definition window_push (fps_window : Z) (frame_times : list Q) (now : Q) : list Q :=
  let frame_times := frame_times ++ [now] in
  if Z.of_nat (length frame_times) >? fps_window
  then slice_from (- fps_window) frame_times
  else frame_times.

Definition fps_update (frame_times : list Q) (measured_fps : Q) : Q :=
  if 2 <=? Z.of_nat (length frame_times) then
    let elapsed := (last frame_times 0 - hd 0 frame_times)%Q in
    if Qpositive elapsed
    then (inject_Z (Z.of_nat (length frame_times) - 1) / elapsed)%Q
    else measured_fps
  else measured_fps.

(** ** camera/usb.py *)

Module USBCamera.

Record t : Type := {
  _cap : option handle;          (* cv2.VideoCapture object, or None *)
  _device_id : Z;
  _width : Z;
  _height : Z;
  _target_fps : Z;
  _retry_interval : Z;
  _sequence : Z;
  _frame_times : list Q;
  _fps_window : Z;
  _measured_fps : Q;
  _actual_width : Z;
  _actual_height : Z
}.

(** [__init__]. *)
Definition init (device_id width height fps retry_interval : Z) : t :=
  {| _cap := None;
     _device_id := device_id;
     _width := width;
     _height := height;
     _target_fps := fps;
     _retry_interval := retry_interval;
     _sequence := 0;
     _frame_times := [];
     _fps_window := 30;
     _measured_fps := 0%Q;
     _actual_width := width;
     _actual_height := height |}.

Definition set_cap (v : option handle) (c : t) : t :=
  {| _cap := v; _device_id := _device_id c; _width := _width c;
     _height := _height c; _target_fps := _target_fps c;
     _retry_interval := _retry_interval c; _sequence := _sequence c;
     _frame_times := _frame_times c; _fps_window := _fps_window c;
     _measured_fps := _measured_fps c; _actual_width := _actual_width c;
     _actual_height := _actual_height c |}.

Definition set_actual (w h : Z) (c : t) : t :=
  {| _cap := _cap c; _device_id := _device_id c; _width := _width c;
     _height := _height c; _target_fps := _target_fps c;
     _retry_interval := _retry_interval c; _sequence := _sequence c;
     _frame_times := _frame_times c; _fps_window := _fps_window c;
     _measured_fps := _measured_fps c; _actual_width := w;
     _actual_height := h |}.

Definition set_tracking (seq : Z) (times : list Q) (fps : Q) (c : t) : t :=
  {| _cap := _cap c; _device_id := _device_id c; _width := _width c;
     _height := _height c; _target_fps := _target_fps c;
     _retry_interval := _retry_interval c; _sequence := seq;
     _frame_times := times; _fps_window := _fps_window c;
     _measured_fps := fps; _actual_width := _actual_width c;
     _actual_height := _actual_height c |}.

(** The device object together with the driver side it talks to. *)
Definition st : Type := (t * world)%type.

Definition self_upd (f : t -> t) : M st unit :=
  modify (fun s : st => (f (fst s), snd s)).

(** What cv2 answers during one [open()]. *)
Record open_env : Type := {
  o_VideoCapture : call bool;     (* the object built; [true]: device opened *)
  o_isOpened : call unit;         (* does [cap.isOpened()] return or raise *)
  o_set_width : call bool;
  o_set_height : call bool;
  o_set_fps : call bool;
  o_get_width : call Q;
  o_get_height : call Q;
  o_get_fps : call Q;
  o_read : call (bool * option ndarray);   (* the self-test read *)
  o_release : call unit
}.

(** What cv2 and the clocks answer during one [read()]. *)
Record read_env : Type := {
  r_isOpened : call unit;         (* does [cap.isOpened()] return or raise *)
  r_read : call (bool * option ndarray);
  r_time : Q;                     (* time.time() *)
  r_now : string                  (* datetime.now().isoformat() *)
}.

(** [cv2.VideoCapture(device_id)]. *)
Definition VideoCapture (c : call bool) : M st handle :=
  opened <- native c ;;
  fun s : st =>
    let (h, w') := alloc opened (snd s) in (Ret h, (fst s, w')).

(** [cap.release()]: the device is given back when the call is made. *)
Definition release (h : handle) (c : call unit) : M st unit :=
  modify (fun s : st => (fst s, forget h (snd s))) ;;
  native c.

(** [cap.isOpened()]: a call into the driver.  Whether it returns or
    raises is for the driver to say ([c]); what it answers when it returns
    is whether the capture holds its device. *)
Definition isOpened (h : handle) (c : call unit) : M st bool :=
  native c ;;
  gets (fun s : st => is_live h (snd s)).

(** What [is_open()] answers when it returns: the device is open when it
    refers to a capture that holds its device. *)
Definition is_open (s : st) : bool :=
  match _cap (fst s) with
  | Some h => is_live h (snd s)
  | None => false
  end.

(** The call [is_open()]:
    [return self._cap is not None and self._cap.isOpened()].  The driver
    is asked only when there is a capture object. *)
Definition is_open_call (c : call unit) : M st bool :=
  cap <- gets (fun s : st => _cap (fst s)) ;;
  match cap with
  | Some h => isOpened h c
  | None => ret false
  end.

(** [_cleanup()]. *)
Definition _cleanup (rel : call unit) : M st unit :=
  cap <- gets (fun s : st => _cap (fst s)) ;;
  match cap with
  | Some h =>
      try_except (release h rel) (fun _ => ret tt) ;;
      self_upd (set_cap None)
  | None => ret tt
  end.

(** [open()]. *)
Definition open (e : open_env) : M st bool :=
  try_except
    (h <- VideoCapture (o_VideoCapture e) ;;
     self_upd (set_cap (Some h)) ;;
     opened <- isOpened h (o_isOpened e) ;;
     if negb opened then ret false
     else
       native (o_set_width e) ;;
       native (o_set_height e) ;;
       native (o_set_fps e) ;;
       aw <- native (o_get_width e) ;;
       ah0 <- gets (fun s : st => _actual_height (fst s)) ;;
       self_upd (set_actual (int_of_float aw) ah0) ;;
       ah <- native (o_get_height e) ;;
       self_upd (set_actual (int_of_float aw) (int_of_float ah)) ;;
       native (o_get_fps e) ;;
       rf <- native (o_read e) ;;
       match rf with
       | (true, Some _) =>
           fps <- gets (fun s : st => _measured_fps (fst s)) ;;
           self_upd (set_tracking 0 [] fps) ;;
           ret true
       | _ =>
           _cleanup (o_release e) ;;
           ret false
       end)
    (fun _ => _cleanup (o_release e) ;; ret false).

(** [read()].  The call of [is_open()] is made before the [try]
    statement: an exception of [cap.isOpened()] leaves [read()]. *)
Definition read (e : read_env) : M st (option Frame.t) :=
  o <- is_open_call (r_isOpened e) ;;
  if negb o then ret None
  else
    try_except
      (rf <- native (r_read e) ;;
       match rf with
       | (true, Some bgr_array) =>
           c <- gets (fun s : st => fst s) ;;
           let times := window_push (_fps_window c) (_frame_times c) (r_time e) in
           let fps := fps_update times (_measured_fps c) in
           self_upd (set_tracking (_sequence c + 1) times fps) ;;
           f <- native (Frame.create bgr_array (_sequence c + 1) None (r_now e)) ;;
           ret (Some f)
       | _ => ret None
       end)
      (fun _ => ret None).

(** [close()]. *)
Definition close (rel : call unit) : M st unit := _cleanup rel.

Definition resolution (c : t) : Z * Z := (_actual_width c, _actual_height c).
Definition fps (c : t) : Q := _measured_fps c.
Definition target_fps (c : t) : Z := _target_fps c.

End USBCamera.

(** ** camera/picamera.py *)

Module PiCamera.

Record t : Type := {
  _picam : option handle;        (* Picamera2 object, or None *)
  _width : Z;
  _height : Z;
  _target_fps : Z;
  _focus_distance : Q;
  _retry_interval : Z;
  _sequence : Z;
  _frame_times : list Q;
  _fps_window : Z;
  _measured_fps : Q
}.

(** [__init__]. *)
Definition init (width height fps : Z) (focus_distance : Q)
           (retry_interval : Z) : t :=
  {| _picam := None;
     _width := width;
     _height := height;
     _target_fps := fps;
     _focus_distance := focus_distance;
     _retry_interval := retry_interval;
     _sequence := 0;
     _frame_times := [];
     _fps_window := 30;
     _measured_fps := 0%Q |}.

Definition set_picam (v : option handle) (c : t) : t :=
  {| _picam := v; _width := _width c; _height := _height c;
     _target_fps := _target_fps c; _focus_distance := _focus_distance c;
     _retry_interval := _retry_interval c; _sequence := _sequence c;
     _frame_times := _frame_times c; _fps_window := _fps_window c;
     _measured_fps := _measured_fps c |}.

Definition set_tracking (seq : Z) (times : list Q) (fps : Q) (c : t) : t :=
  {| _picam := _picam c; _width := _width c; _height := _height c;
     _target_fps := _target_fps c; _focus_distance := _focus_distance c;
     _retry_interval := _retry_interval c; _sequence := seq;
     _frame_times := times; _fps_window := _fps_window c;
     _measured_fps := fps |}.

Definition st : Type := (t * world)%type.

Definition self_upd (f : t -> t) : M st unit :=
  modify (fun s : st => (f (fst s), snd s)).

(** What picamera2 and libcamera answer during one [_cleanup()]. *)
Record cleanup_env : Type := {
  c_stop : call unit;
  c_close : call unit
}.

(** What Python's import system, picamera2 and libcamera answer during
    one [open()]. *)
Record open_env : Type := {
  o_import_picamera2 : call unit;           (* from picamera2 import Picamera2 *)
  o_Picamera2 : call unit;                  (* Picamera2() *)
  o_create_video_configuration : call unit;
  o_configure : call unit;
  o_import_libcamera : call unit;           (* from libcamera import controls *)
  o_set_controls : call unit;
  o_start : call unit;
  o_cleanup : cleanup_env
}.

Record read_env : Type := {
  r_capture_array : call ndarray;
  r_time : Q;
  r_now : string
}.

(** [Picamera2()]: when the constructor returns, the camera is held. *)
Definition Picamera2 (c : call unit) : M st handle :=
  native c ;;
  fun s : st =>
    let (h, w') := alloc true (snd s) in (Ret h, (fst s, w')).

(** [picam.close()]: the camera is given back when the call is made. *)
Definition picam_close (h : handle) (c : call unit) : M st unit :=
  modify (fun s : st => (fst s, forget h (snd s))) ;;
  native c.

(** [is_open()]. *)
Definition is_open (s : st) : bool :=
  match _picam (fst s) with
  | Some _ => true
  | None => false
  end.

(** [_cleanup()]: [stop()] and [close()] share one [try], so an exception
    of [stop()] skips [close()]. *)
Definition _cleanup (e : cleanup_env) : M st unit :=
  picam <- gets (fun s : st => _picam (fst s)) ;;
  match picam with
  | Some h =>
      try_except
        (native (c_stop e) ;;
         picam_close h (c_close e))
        (fun _ => ret tt) ;;
      self_upd (set_picam None)
  | None => ret tt
  end.

(** [open()]. *)
Definition open (e : open_env) : M st bool :=
  try_except
    (native (o_import_picamera2 e) ;;
     h <- Picamera2 (o_Picamera2 e) ;;
     self_upd (set_picam (Some h)) ;;
     native (o_create_video_configuration e) ;;
     native (o_configure e) ;;
     try_except
       (native (o_import_libcamera e) ;;
        native (o_set_controls e))
       (fun _ => ret tt) ;;
     native (o_start e) ;;
     fps <- gets (fun s : st => _measured_fps (fst s)) ;;
     self_upd (set_tracking 0 [] fps) ;;
     ret true)
    (fun ex =>
       match ex with
       | ImportError => ret false
       | _ => _cleanup (o_cleanup e) ;; ret false
       end).

(** [read()]. *)
Definition read (e : read_env) : M st (option Frame.t) :=
  o <- gets is_open ;;
  if negb o then ret None
  else
    try_except
      (rgb_array <- native (r_capture_array e) ;;
       bgr_array <- native (reverse_axis2 rgb_array) ;;
       c <- gets (fun s : st => fst s) ;;
       let times := window_push (_fps_window c) (_frame_times c) (r_time e) in
       let fps := fps_update times (_measured_fps c) in
       self_upd (set_tracking (_sequence c + 1) times fps) ;;
       f <- native (Frame.create bgr_array (_sequence c + 1) None (r_now e)) ;;
       ret (Some f))
      (fun _ => ret None).

(** [close()]. *)
Definition close (e : cleanup_env) : M st unit := _cleanup e.

Definition resolution (c : t) : Z * Z := (_width c, _height c).
Definition fps (c : t) : Q := _measured_fps c.
Definition target_fps (c : t) : Z := _target_fps c.

End PiCamera.

(** ** camera/__init__.py *)

(** The object the factory returns: one of the two implementations of
    [Camera]. *)
Inductive camera_object : Type :=
| CamPi (c : PiCamera.t)
| CamUSB (c : USBCamera.t).

(** What the import system and picamera2 answer to the auto-detection
    probe. *)
Record probe_env : Type := {
  p_import_picamera2 : call unit;
  p_Picamera2 : call unit;
  p_close : call unit
}.

(** [create_camera(camera_type, width, height, fps, device_id,
    focus_distance, retry_interval)].  The state is the driver side: the
    probe of ["auto"] builds and closes a [Picamera2]. *)
Definition create_camera (camera_type : string)
           (width height fps device_id : Z) (focus_distance : Q)
           (retry_interval : Z) (p : probe_env) : M world camera_object :=
  if (camera_type =? "picamera")%string then
    ret (CamPi (PiCamera.init width height fps focus_distance retry_interval))
  else if (camera_type =? "usb")%string then
    ret (CamUSB (USBCamera.init device_id width height fps retry_interval))
  else if (camera_type =? "auto")%string then
    try_except
      (native (p_import_picamera2 p) ;;
       native (p_Picamera2 p) ;;
       test_cam <- (fun w => let (h, w') := alloc true w in (Ret h, w')) ;;
       modify (forget test_cam) ;;
       native (p_close p) ;;
       ret (CamPi (PiCamera.init width height fps focus_distance retry_interval)))
      (fun _ =>
         ret (CamUSB (USBCamera.init device_id width height fps retry_interval)))
  else
    raise (ValueError ("Unknown camera type: " ++ camera_type)).

(** ** config/settings.py *)

Record CameraConfig : Type := {
  cfg_type : string;
  cfg_width : Z;
  cfg_height : Z;
  cfg_fps : Z;
  cfg_device_id : Z;
  cfg_focus_distance : Q;
  cfg_retry_interval : Z
}.

Definition CameraConfig_default : CameraConfig :=
  {| cfg_type := "auto"; cfg_width := 640; cfg_height := 480; cfg_fps := 10;
     cfg_device_id := 0; cfg_focus_distance := 3 # 2; cfg_retry_interval := 30 |}.

(** ** main.py: the capture supervisor *)

(** The supervisor drives the camera through the [Camera] interface only,
    so its model takes the result of each call from a script.  A [reply] is
    what one call ([open], [read], [close], [time.sleep]) does: what it
    answers, and whether SIGINT or SIGTERM is delivered while it runs. *)
Inductive answer : Type :=
| Yes                 (* open(): True; read(): a frame *)
| No                  (* open(): False; read(): None *)
| Throws (e : exn).

Record reply : Type := {
  ans : answer;
  sig : bool
}.

Inductive event : Type :=
| EvOpen
| EvRead
| EvClose
| EvSleep (seconds : Z).

(** How [main()] ends.  [Killed]: a signal arrived while the default
    dispositions were still in place ([KeyboardInterrupt] outside any
    handler, or termination by SIGTERM). *)
Inductive outcome : Type :=
| Returned (code : Z)
| Uncaught (e : exn)
| Killed
| ScriptEnded.

(** Control points: the call [main()] is about to make. *)
Inductive pc : Type :=
| InitOpen            (* line 123: while not camera.open() *)
| InitSleep           (* line 129 *)
| RunRead             (* line 157, after [while running] held *)
| RunClose            (* line 164 *)
| ReOpen              (* line 167, after [running] held *)
| ReSleep             (* line 174 *)
| FinalClose (code : Z)       (* line 208, then [return code] *)
| Halt (o : outcome).

(** [while running:] at line 156. *)
Definition loop_top (running : bool) : pc :=
  if running then RunRead else FinalClose 0.

(** [while running and not camera.open():] at line 167; when [running] is
    false the loop is skipped, [if running:] too, and [continue] leads to
    line 156. *)
Definition reconnect_top (running : bool) : pc :=
  if running then ReOpen else loop_top running.

(** One call of [main()] and the control flow up to the next call.  The
    flag [running] exists, and the handlers that clear it are installed,
    only from line 139 on: [InitOpen] and [InitSleep] run before.  The
    frame counter and the periodic rate report only feed the log and are
    left out. *)
Definition step (retry_interval : Z) (p : pc) (running : bool) (r : reply)
  : event * pc * bool :=
  let running' := running && negb (sig r) in
  match p with
  | InitOpen =>
      (EvOpen,
       if sig r then Halt Killed
       else match ans r with
            | Throws e => Halt (Uncaught e)
            | Yes => loop_top true
            | No => InitSleep
            end,
       true)
  | InitSleep =>
      (EvSleep retry_interval,
       if sig r then Halt Killed
       else match ans r with
            | Throws e => Halt (Uncaught e)
            | _ => InitOpen
            end,
       true)
  | RunRead =>
      (EvRead,
       match ans r with
       | Throws _ => FinalClose 1
       | Yes => loop_top running'
       | No => RunClose
       end,
       running')
  | RunClose =>
      (EvClose,
       match ans r with
       | Throws _ => FinalClose 1
       | _ => reconnect_top running'
       end,
       running')
  | ReOpen =>
      (EvOpen,
       match ans r with
       | Throws _ => FinalClose 1
       | Yes => loop_top running'
       | No => ReSleep
       end,
       running')
  | ReSleep =>
      (EvSleep retry_interval,
       match ans r with
       | Throws _ => FinalClose 1
       | _ => reconnect_top running'
       end,
       running')
  | FinalClose code =>
      (EvClose,
       match ans r with
       | Throws e => Halt (Uncaught e)
       | _ => Halt (Returned code)
       end,
       running')
  | Halt o => (EvClose, Halt o, running)
  end.

(** The calls made from control point [p] on, and how [main()] ends. *)
Fixpoint supervise (retry_interval : Z) (p : pc) (running : bool)
         (script : list reply) : list event * outcome :=
  match p with
  | Halt o => ([], o)
  | _ =>
      match script with
      | [] => ([], ScriptEnded)
      | r :: script' =>
          let '(ev, p', running') := step retry_interval p running r in
          let (evs, o) := supervise retry_interval p' running' script' in
          (ev :: evs, o)
      end
  end.

(** [main()], from the construction of the camera on. *)
Definition main (cfg : CameraConfig) (p : probe_env) (script : list reply)
  : list event * outcome :=
  match create_camera (cfg_type cfg) (cfg_width cfg) (cfg_height cfg)
          (cfg_fps cfg) (cfg_device_id cfg) (cfg_focus_distance cfg)
          (cfg_retry_interval cfg) p world0 with
  | (Raise e, _) => ([], Uncaught e)
  | (Ret _, _) => supervise (cfg_retry_interval cfg) InitOpen true script
  end.

(** ** The [Camera] interface and sequences of calls on one device *)

(** The abstract base class [Camera] of camera/base.py: what every backend
    implements.  [St] is the device together with the driver side it talks
    to; the [_env] types are what the native libraries answer during one
    call.  [cam_is_open] is what [is_open()] answers when it returns. *)
Class Camera (St : Type) : Type := {
  open_env : Type;
  read_env : Type;
  close_env : Type;
  cam_open : open_env -> M St bool;
  cam_read : read_env -> M St (option Frame.t);
  cam_close : close_env -> M St unit;
  cam_is_open : St -> bool;
  cam_resolution : St -> Z * Z;
  cam_fps : St -> Q;
  cam_target_fps : St -> Z
}.

#[global] Hint Mode Camera ! : typeclass_instances.

#[export] Instance USB_Camera : Camera USBCamera.st := {|
  open_env := USBCamera.open_env;
  read_env := USBCamera.read_env;
  close_env := call unit;
  cam_open := USBCamera.open;
  cam_read := USBCamera.read;
  cam_close := USBCamera.close;
  cam_is_open := USBCamera.is_open;
  cam_resolution := fun s => USBCamera.resolution (fst s);
  cam_fps := fun s => USBCamera.fps (fst s);
  cam_target_fps := fun s => USBCamera.target_fps (fst s)
|}.

#[export] Instance Pi_Camera : Camera PiCamera.st := {|
  open_env := PiCamera.open_env;
  read_env := PiCamera.read_env;
  close_env := PiCamera.cleanup_env;
  cam_open := PiCamera.open;
  cam_read := PiCamera.read;
  cam_close := PiCamera.close;
  cam_is_open := PiCamera.is_open;
  cam_resolution := fun s => PiCamera.resolution (fst s);
  cam_fps := fun s => PiCamera.fps (fst s);
  cam_target_fps := fun s => PiCamera.target_fps (fst s)
|}.

Section Calls.

Context {St : Type} {cam : Camera St}.

(** One call on the device, with what the native side answers. *)
Inductive op : Type :=
| Open (e : @open_env St cam)
| Read (e : @read_env St cam)
| Close (e : @close_env St cam).

(** The state a call leaves. *)
Definition exec (o : op) (s : St) : St :=
  match o with
  | Open e => snd (cam_open e s)
  | Read e => snd (cam_read e s)
  | Close e => snd (cam_close e s)
  end.

(** The state after a sequence of calls. *)
Fixpoint run (ops : list op) (s : St) : St :=
  match ops with
  | [] => s
  | o :: ops' => run ops' (exec o s)
  end.

(** Every state the device goes through, the first one included. *)
Fixpoint states (ops : list op) (s : St) : list St :=
  s :: match ops with
       | [] => []
       | o :: ops' => states ops' (exec o s)
       end.


Definition is_Open (o : op) : bool :=
  match o with Open _ => true | _ => false end.

(** The calling discipline under which handles do not pile up:
    [open()] is only called on a device that is not open. *)
Definition open_on_closed (o : op) (s : St) : bool :=
  negb (is_Open o && cam_is_open s).

(** [allowed o s]: call [o] may be made in state [s]. *)
Variable allowed : op -> St -> bool.

Fixpoint admissible (ops : list op) (s : St) : bool :=
  match ops with
  | [] => true
  | o :: ops' => allowed o s && admissible ops' (exec o s)
  end.

End Calls.

Arguments op St {cam}.
Arguments Open St {cam} e.
Arguments Read St {cam} e.
Arguments Close St {cam} e.

(** The calls of each backend. *)
Abbreviation USB_Open := (@Open USBCamera.st USB_Camera).
Abbreviation USB_Read := (@Read USBCamera.st USB_Camera).
Abbreviation USB_Close := (@Close USBCamera.st USB_Camera).
Abbreviation Pi_Open := (@Open PiCamera.st Pi_Camera).
Abbreviation Pi_Read := (@Read PiCamera.st Pi_Camera).
Abbreviation Pi_Close := (@Close PiCamera.st Pi_Camera).

(** The last [n] elements of a list. *)
Definition lastn {A} (n : nat) (l : list A) : list A :=
  skipn (length l - n) l.

(** Is capture [e] one that cv2 can deliver: an image that is returned
    has at least two axes (rows and columns). *)
Definition usb_image_read (e : USBCamera.read_env) : bool :=
  match USBCamera.r_read e with
  | Ret (_, Some a) => (2 <=? length (shape a))%nat
  | _ => true
  end.


(** [stop()] does not raise when call [o] of the integrated camera cleans
    up. *)
Definition returns (c : call unit) : bool :=
  match c with Ret _ => true | Raise _ => false end.

Definition pi_stop_ok (o : op PiCamera.st) : bool :=
  match o with
  | Open _ e => returns (PiCamera.c_stop (PiCamera.o_cleanup e))
  | Read _ _ => true
  | Close _ e => returns (PiCamera.c_stop e)
  end.

Definition pi_allowed (o : op PiCamera.st) (s : PiCamera.st) : bool :=
  open_on_closed o s && pi_stop_ok o.

(** At most one handle is live, and it is the one the device refers to. *)
Definition sole_owner (held : option handle) (w : world) : bool :=
  match live w with
  | [] => true
  | [h'] =>
      match held with
      | Some h => Nat.eqb h h'
      | None => false
      end
  | _ => false
  end.

(** ** Concrete environments used in the examples *)

(** A 2 x 3 image with three channels. *)
Definition image_2x3 : ndarray :=
  {| shape := [2; 3; 3]%nat;
     flat := [11; 12; 13; 21; 22; 23; 31; 32; 33;
              41; 42; 43; 51; 52; 53; 61; 62; 63] |}.

(** A USB camera that opens and passes the self-test. *)
Definition usb_open_ok : USBCamera.open_env :=
  {| USBCamera.o_VideoCapture := Ret true;
     USBCamera.o_isOpened := Ret tt;
     USBCamera.o_set_width := Ret true;
     USBCamera.o_set_height := Ret true;
     USBCamera.o_set_fps := Ret true;
     USBCamera.o_get_width := Ret (640 # 1);
     USBCamera.o_get_height := Ret (480 # 1);
     USBCamera.o_get_fps := Ret (30 # 1);
     USBCamera.o_read := Ret (true, Some image_2x3);
     USBCamera.o_release := Ret tt |}.

(** No device at that index: the capture object is built but not opened. *)
Definition usb_open_absent : USBCamera.open_env :=
  {| USBCamera.o_VideoCapture := Ret false;
     USBCamera.o_isOpened := Ret tt;
     USBCamera.o_set_width := Ret true;
     USBCamera.o_set_height := Ret true;
     USBCamera.o_set_fps := Ret true;
     USBCamera.o_get_width := Ret (640 # 1);
     USBCamera.o_get_height := Ret (480 # 1);
     USBCamera.o_get_fps := Ret (30 # 1);
     USBCamera.o_read := Ret (false, None);
     USBCamera.o_release := Ret tt |}.

(** A successful capture at time [t]. *)
Definition usb_read_at (t : Q) : USBCamera.read_env :=
  {| USBCamera.r_isOpened := Ret tt;
     USBCamera.r_read := Ret (true, Some image_2x3);
     USBCamera.r_time := t;
     USBCamera.r_now := "2024-01-15T12:30:45" |}.

Definition usb_read_fails : USBCamera.read_env :=
  {| USBCamera.r_isOpened := Ret tt;
     USBCamera.r_read := Ret (false, None);
     USBCamera.r_time := 0;
     USBCamera.r_now := "2024-01-15T12:30:45" |}.

(** A read during which [cap.isOpened()] raises. *)
Definition usb_read_check_raises : USBCamera.read_env :=
  {| USBCamera.r_isOpened := Raise OtherError;
     USBCamera.r_read := Ret (true, Some image_2x3);
     USBCamera.r_time := 0;
     USBCamera.r_now := "2024-01-15T12:30:45" |}.

Definition usb0 : USBCamera.st := (USBCamera.init 0 640 480 10 30, world0).

Definition pi_cleanup_ok : PiCamera.cleanup_env :=
  {| PiCamera.c_stop := Ret tt; PiCamera.c_close := Ret tt |}.

Definition pi_open_ok : PiCamera.open_env :=
  {| PiCamera.o_import_picamera2 := Ret tt;
     PiCamera.o_Picamera2 := Ret tt;
     PiCamera.o_create_video_configuration := Ret tt;
     PiCamera.o_configure := Ret tt;
     PiCamera.o_import_libcamera := Ret tt;
     PiCamera.o_set_controls := Ret tt;
     PiCamera.o_start := Ret tt;
     PiCamera.o_cleanup := pi_cleanup_ok |}.

(** The driver is imported and the camera object built, then a later call
    of the [try] body ([start()]) raises an [ImportError], as a module
    that is loaded on first use and is missing would. *)
Definition pi_open_late_import_error : PiCamera.open_env :=
  {| PiCamera.o_import_picamera2 := Ret tt;
     PiCamera.o_Picamera2 := Ret tt;
     PiCamera.o_create_video_configuration := Ret tt;
     PiCamera.o_configure := Ret tt;
     PiCamera.o_import_libcamera := Ret tt;
     PiCamera.o_set_controls := Ret tt;
     PiCamera.o_start := Raise ImportError;
     PiCamera.o_cleanup := pi_cleanup_ok |}.

Definition pi_read_at (t : Q) : PiCamera.read_env :=
  {| PiCamera.r_capture_array := Ret image_2x3;
     PiCamera.r_time := t;
     PiCamera.r_now := "2024-01-15T12:30:45" |}.

Definition pi0 : PiCamera.st := (PiCamera.init 640 480 10 (3 # 2) 30, world0).

(** An array with a single axis, which is not an image, and a capture
    that would deliver it. *)
Definition array_one_axis : ndarray :=
  {| shape := [6]%nat; flat := [1; 2; 3; 4; 5; 6] |}.

Definition usb_read_one_axis : USBCamera.read_env :=
  {| USBCamera.r_isOpened := Ret tt;
     USBCamera.r_read := Ret (true, Some array_one_axis);
     USBCamera.r_time := 0;
     USBCamera.r_now := "2024-01-15T12:30:45" |}.

(** A device that is opened, read twice one second apart, closed and
    opened again. *)
Definition usb_epoch_then_reopen : list (op USBCamera.st) :=
  [USB_Open usb_open_ok;
   USB_Read (usb_read_at 0);
   USB_Read (usb_read_at 1);
   USB_Close (Ret tt);
   USB_Open usb_open_ok].

(** A device that is opened, read three times and closed. *)
Definition usb_three_reads_closed : list (op USBCamera.st) :=
  [USB_Open usb_open_ok;
   USB_Read (usb_read_at 0);
   USB_Read (usb_read_at 1);
   USB_Read (usb_read_at 2);
   USB_Close (Ret tt)].

Definition pi_epoch_then_reopen : list (op PiCamera.st) :=
  [Pi_Open pi_open_ok;
   Pi_Read (pi_read_at 0);
   Pi_Read (pi_read_at 1);
   Pi_Close pi_cleanup_ok;
   Pi_Open pi_open_ok].

(** Successive reads at the given clock readings. *)
Definition usb_reads_at (ts : list Q) : list (op USBCamera.st) :=
  map (fun t => USB_Read (usb_read_at t)) ts.

(** Two series of forty clock readings with the same last thirty: the
    clock stands still during the last thirty reads. *)
Definition clock_a : list Q :=
  map inject_Z [0; 1; 2; 3; 4; 5; 6; 7; 8; 9] ++ repeat (inject_Z 10) 30.

Definition clock_b : list Q :=
  map inject_Z [0; 1; 2; 3; 4; 5; 6; 7; 8] ++ [19 # 2] ++ repeat (inject_Z 10) 30.

(** Forty clock readings one second apart. *)
Definition clock_40 : list Q :=
  map (fun n => inject_Z (Z.of_nat n)) (seq 0 40).

(** The failures of a capture that [read()] tests for.  USB: the call
    raises, or reports failure, or delivers no image.  Integrated camera:
    the call raises, or the array lacks the three axes that the channel
    reversal indexes. *)
Definition usb_capture_failed (e : USBCamera.read_env) : bool :=
  match USBCamera.r_read e with
  | Raise _ => true
  | Ret (ok, buf) =>
      negb ok || match buf with None => true | Some _ => false end
  end.

Definition pi_capture_failed (e : PiCamera.read_env) : bool :=
  match PiCamera.r_capture_array e with
  | Raise _ => true
  | Ret a => (length (shape a) <? 3)%nat
  end.

(** The read gets an image: on the USB backend the check of [is_open()]
    returns and the capture delivers an image; on the integrated camera
    the capture delivers an array and the channel reversal goes through. *)
Definition usb_captured (e : USBCamera.read_env) : bool :=
  match USBCamera.r_isOpened e, USBCamera.r_read e with
  | Ret _, Ret (true, Some _) => true
  | _, _ => false
  end.

Definition pi_captured (e : PiCamera.read_env) : bool :=
  match PiCamera.r_capture_array e with
  | Ret a =>
      match reverse_axis2 a with
      | Ret _ => true
      | Raise _ => false
      end
  | Raise _ => false
  end.

(** Oldest-to-newest span of a window. *)
Definition span (w : list Q) : Q := (last w 0 - hd 0 w)%Q.

(** [e] with another image delivered by the self-test read. *)
Definition with_test_image (a : ndarray) (e : USBCamera.open_env)
  : USBCamera.open_env :=
  {| USBCamera.o_VideoCapture := USBCamera.o_VideoCapture e;
     USBCamera.o_isOpened := USBCamera.o_isOpened e;
     USBCamera.o_set_width := USBCamera.o_set_width e;
     USBCamera.o_set_height := USBCamera.o_set_height e;
     USBCamera.o_set_fps := USBCamera.o_set_fps e;
     USBCamera.o_get_width := USBCamera.o_get_width e;
     USBCamera.o_get_height := USBCamera.o_get_height e;
     USBCamera.o_get_fps := USBCamera.o_get_fps e;
     USBCamera.o_read := Ret (true, Some a);
     USBCamera.o_release := USBCamera.o_release e |}.

(** The picamera2 module is not installed. *)
Definition probe_no_picamera2 : probe_env :=
  {| p_import_picamera2 := Raise ImportError;
     p_Picamera2 := Ret tt;
     p_close := Ret tt |}.

Definition quiet (a : answer) : reply := {| ans := a; sig := false |}.
Definition signalled (a : answer) : reply := {| ans := a; sig := true |}.

(** No camera is connected at start-up, and a signal arrives during the
    first [time.sleep(retry_interval)]. *)
Definition script_signal_at_startup : list reply :=
  [quiet No; signalled No; quiet No; quiet No].

(** The control points of the main loop and of the reconnect loop, where
    the flag [running] exists. *)
Definition in_main_loop (p : pc) : bool :=
  match p with
  | RunRead | RunClose | ReOpen | ReSleep => true
  | _ => false
  end.

Definition is_Throws (a : answer) : bool :=
  match a with Throws _ => true | _ => false end.

Definition is_capture_call (ev : event) : bool :=
  match ev with EvOpen | EvRead => true | _ => false end.

(** ** config/settings.py: the configuration loader *)

Module Settings.

(** A document as [yaml.safe_load] returns it. *)
#[warnings="-register-all"]
Inductive yaml : Type :=
| YNull
| YBool (b : bool)
| YInt (z : Z)
| YFloat (q : Q)
| YStr (s : string)
| YList (l : list yaml)
| YMap (m : list (yaml * yaml)).

(** The exceptions the loader can end with. *)
Inductive error : Type :=
| YAMLError            (* the file is not YAML *)
| AttributeError       (* [data.get] on a document that is no mapping *)
| TypeError.           (* a section that is no mapping, or a bad keyword *)

(** What the path given to [load] leads to. *)
Inductive file : Type :=
| Absent
| Malformed
| Content (doc : yaml).

(** Python truth value, as used by [yaml.safe_load(f) or {}]. *)
Definition truthy (y : yaml) : bool :=
  match y with
  | YNull => false
  | YBool b => b
  | YInt z => negb (z =? 0)
  | YFloat q => negb (Qnum q =? 0)
  | YStr s => negb (s =? "")%string
  | YList l => match l with [] => false | _ => true end
  | YMap m => match m with [] => false | _ => true end
  end.

(** [d.get(key, {})] on a dict whose entries are [m]: a string key is equal
    to string entries only. *)
Fixpoint dict_get (key : string) (m : list (yaml * yaml)) : yaml :=
  match m with
  | [] => YMap []
  | (YStr k, v) :: m' => if (k =? key)%string then v else dict_get key m'
  | _ :: m' => dict_get key m'
  end.

(** The keyword arguments a section is unpacked into by the double-star
    call of its dataclass: the section has to be a mapping with string
    keys. *)
Fixpoint keywords (m : list (yaml * yaml)) : option (list (string * yaml)) :=
  match m with
  | [] => Some []
  | (YStr k, v) :: m' =>
      match keywords m' with
      | Some kw => Some ((k, v) :: kw)
      | None => None
      end
  | _ :: _ => None
  end.

Fixpoint kw_get (key : string) (kw : list (string * yaml)) : option yaml :=
  match kw with
  | [] => None
  | (k, v) :: kw' => if (k =? key)%string then Some v else kw_get key kw'
  end.

(** A dataclass field: the keyword if given, else the default. *)
Definition field (kw : list (string * yaml)) (name : string) (default : yaml)
  : yaml :=
  match kw_get name kw with
  | Some v => v
  | None => default
  end.

Definition known (names : list string) (kw : list (string * yaml)) : bool :=
  forallb (fun kv => existsb (String.eqb (fst kv)) names) kw.

(** The dataclasses.  A dataclass does not check the type of what it is
    given: a field holds whatever value the document has. *)
Record CameraConfig : Type := {
  type_ : yaml;
  width : yaml;
  height : yaml;
  fps : yaml;
  device_id : yaml;
  focus_distance : yaml;
  retry_interval : yaml
}.

Record StorageConfig : Type := {
  data_dir : yaml;
  clips_dir : yaml;
  db_path : yaml
}.

Record LoggingConfig : Type := {
  level : yaml;
  file_ : yaml;
  format : yaml
}.

Record t : Type := {
  camera : CameraConfig;
  storage : StorageConfig;
  logging : LoggingConfig
}.

Definition camera_fields : list string :=
  ["type"; "width"; "height"; "fps"; "device_id"; "focus_distance";
   "retry_interval"]%string.
Definition storage_fields : list string :=
  ["data_dir"; "clips_dir"; "db_path"]%string.
Definition logging_fields : list string :=
  ["level"; "file"; "format"]%string.

(** The dataclass constructors applied to keyword arguments [kw]. *)
Definition CameraConfig_kw (kw : list (string * yaml)) : CameraConfig :=
  {| type_ := field kw "type" (YStr "auto");
     width := field kw "width" (YInt 640);
     height := field kw "height" (YInt 480);
     fps := field kw "fps" (YInt 10);
     device_id := field kw "device_id" (YInt 0);
     focus_distance := field kw "focus_distance" (YFloat (3 # 2));
     retry_interval := field kw "retry_interval" (YInt 30) |}.

Definition StorageConfig_kw (kw : list (string * yaml)) : StorageConfig :=
  {| data_dir := field kw "data_dir" (YStr "./data");
     clips_dir := field kw "clips_dir" (YStr "./data/clips");
     db_path := field kw "db_path" (YStr "./data/detections.db") |}.

Definition LoggingConfig_kw (kw : list (string * yaml)) : LoggingConfig :=
  {| level := field kw "level" (YStr "INFO");
     file_ := field kw "file" (YStr "./logs/apis.log");
     format := field kw "format" (YStr "json") |}.

(** A dataclass with fields [names] built from a section of the document:
    an unknown keyword is a [TypeError]. *)
Definition construct {A} (names : list string)
           (make : list (string * yaml) -> A) (section : yaml) : error + A :=
  match section with
  | YMap m =>
      match keywords m with
      | Some kw => if known names kw then inr (make kw) else inl TypeError
      | None => inl TypeError
      end
  | _ => inl TypeError
  end.

(** [Settings()]: every section at its defaults. *)
Definition defaults : t :=
  {| camera := CameraConfig_kw [];
     storage := StorageConfig_kw [];
     logging := LoggingConfig_kw [] |}.

(** [Settings.load(config_path)], given what the path leads to. *)
Definition load (f : file) : error + t :=
  match f with
  | Absent => inr defaults
  | Malformed => inl YAMLError
  | Content doc =>
      let data := if truthy doc then doc else YMap [] in
      match data with
      | YMap m =>
          match construct camera_fields CameraConfig_kw (dict_get "camera" m) with
          | inl e => inl e
          | inr c =>
              match construct storage_fields StorageConfig_kw
                      (dict_get "storage" m) with
              | inl e => inl e
              | inr s =>
                  match construct logging_fields LoggingConfig_kw
                          (dict_get "logging" m) with
                  | inl e => inl e
                  | inr l => inr {| camera := c; storage := s; logging := l |}
                  end
              end
          end
      | _ => inl AttributeError
      end
  end.

(** The module-level [_settings]; [fs] is what each path leads to. *)
Definition get_settings (fs : string -> file) (config_path : string)
           (_settings : option t) : (error + t) * option t :=
  match _settings with
  | None =>
      match load (fs config_path) with
      | inr s => (inr s, Some s)
      | inl e => (inl e, None)
      end
  | Some s => (inr s, Some s)
  end.

Definition reset_settings (_settings : option t) : option t := None.

End Settings.

(** ** The calling protocol of a device, seen from the supervisor *)

Inductive device_state : Type :=
| DevClosed
| DevOpen.

(** What a call answered leaves the device in, when the call is one that
    may be made: [open()] on a device that is not open, [read()] on a device
    that was opened; [None] when it is not. *)
Definition protocol_step (d : device_state) (ev : event) (a : answer)
  : option device_state :=
  match ev, d with
  | EvOpen, DevClosed =>
      Some match a with Yes => DevOpen | _ => DevClosed end
  | EvOpen, DevOpen => None
  | EvRead, DevOpen => Some DevOpen
  | EvRead, DevClosed => None
  | EvClose, _ => Some DevClosed
  | EvSleep _, _ => Some d
  end.

Fixpoint obeys (d : device_state) (evs : list event) (script : list reply)
  : bool :=
  match evs, script with
  | ev :: evs', r :: script' =>
      match protocol_step d ev (ans r) with
      | Some d' => obeys d' evs' script'
      | None => false
      end
  | _, _ => true
  end.

Definition has_signal (script : list reply) : bool := existsb sig script.

Definition has_throw (script : list reply) : bool :=
  existsb (fun r => is_Throws (ans r)) script.

(** [n] failed attempts to open, each followed by the pause, then a
    successful one. *)
Fixpoint failed_opens (n : nat) : list reply :=
  match n with
  | O => []
  | S n' => quiet No :: quiet Yes :: failed_opens n'
  end.

Fixpoint retry_events (ri : Z) (n : nat) : list event :=
  match n with
  | O => []
  | S n' => EvOpen :: EvSleep ri :: retry_events ri n'
  end.

(** The fields of a device that only the constructor sets. *)
Definition usb_config (c : USBCamera.t) : Z * Z * Z * Z * Z * Z :=
  (USBCamera._device_id c, USBCamera._width c, USBCamera._height c,
   USBCamera._target_fps c, USBCamera._retry_interval c,
   USBCamera._fps_window c).

Definition pi_config (c : PiCamera.t) : Z * Z * Z * Q * Z * Z :=
  (PiCamera._width c, PiCamera._height c, PiCamera._target_fps c,
   PiCamera._focus_distance c, PiCamera._retry_interval c,
   PiCamera._fps_window c).

(** An array whose data fills its shape. *)
Definition shaped (a : ndarray) : bool :=
  (length (flat a) =? fold_right Nat.mul 1%nat (shape a))%nat.

(** What a camera object answers through the interface, before it is given
    a driver side. *)
Definition obj_resolution (c : camera_object) : Z * Z :=
  match c with
  | CamPi c => PiCamera.resolution c
  | CamUSB c => USBCamera.resolution c
  end.

Definition obj_target_fps (c : camera_object) : Z :=
  match c with
  | CamPi c => PiCamera.target_fps c
  | CamUSB c => USBCamera.target_fps c
  end.

Definition obj_fps (c : camera_object) : Q :=
  match c with
  | CamPi c => PiCamera.fps c
  | CamUSB c => USBCamera.fps c
  end.

Definition obj_is_open (c : camera_object) (w : world) : bool :=
  match c with
  | CamPi c => PiCamera.is_open (c, w)
  | CamUSB c => USBCamera.is_open (c, w)
  end.

Definition is_pi (c : camera_object) : bool :=
  match c with CamPi _ => true | CamUSB _ => false end.

Definition recognised (camera_type : string) : bool :=
  ((camera_type =? "picamera") || (camera_type =? "usb")
   || (camera_type =? "auto"))%string.

(** The state each control point of [main()] expects the device in;
    [None]: any. *)
Definition expects (p : pc) : option device_state :=
  match p with
  | InitOpen | InitSleep | ReOpen | ReSleep => Some DevClosed
  | RunRead => Some DevOpen
  | RunClose | FinalClose _ | Halt _ => None
  end.

Definition fits (p : pc) (d : device_state) : bool :=
  match expects p, d with
  | Some DevClosed, DevClosed => true
  | Some DevOpen, DevOpen => true
  | Some _, _ => false
  | None, _ => true
  end.

(** ** main.py: the periodic rate report (lines 182-196)

    The counting that [main()] does for each frame it read.  The state is
    [(frame_count, last_fps_report)]; a report carries the values computed
    before the log call rounds them. *)
Record fps_report : Type := {
  rep_frames : Z;
  rep_elapsed : Q;
  rep_measured : Q
}.

Definition fps_report_interval : Q := 10.

Definition on_frame (st : Z * Q) (now : Q) : option fps_report * (Z * Q) :=
  let frame_count := fst st + 1 in
  let last_fps_report := snd st in
  if Qle_bool fps_report_interval (now - last_fps_report) then
    let elapsed := (now - last_fps_report)%Q in
    let measured_fps :=
      if Qpositive elapsed then (inject_Z frame_count / elapsed)%Q else 0%Q in
    (Some {| rep_frames := frame_count; rep_elapsed := elapsed;
             rep_measured := measured_fps |},
     (0, now))
  else (None, (frame_count, last_fps_report)).

(** The reports emitted for frames read at the clock readings [nows]. *)
Fixpoint on_frames (st : Z * Q) (nows : list Q) : list fps_report * (Z * Q) :=
  match nows with
  | [] => ([], st)
  | now :: nows' =>
      let (r, st') := on_frame st now in
      let (rs, st'') := on_frames st' nows' in
      (match r with Some rep => rep :: rs | None => rs end, st'')
  end.

Definition total_frames (rs : list fps_report) : Z :=
  fold_right (fun r acc => rep_frames r + acc) 0 rs.

(** ** Proof tools *)

Ltac unfold_py :=
  unfold bind, try_except, ret, raise, gets, modify, native in *.

(** Case analysis on the next outcome the computation looks at. *)
Ltac next_case :=
  match goal with
  | |- context [match ?x with _ => _ end] =>
      lazymatch x with
      | context [match _ with _ => _ end] => fail
      | _ => destruct x eqn:?
      end
  end.

Ltac cases := repeat (simpl in *; try next_case).

Lemma Qpositive_iff (x : Q) : Qpositive x = true <-> (0 < x)%Q.
Proof.
  unfold Qpositive, Qlt. simpl. rewrite Z.ltb_lt. lia.
Qed.

Lemma Qpositive_false_iff (x : Q) : Qpositive x = false <-> ~ (0 < x)%Q.
Proof.
  rewrite <- Qpositive_iff. destruct (Qpositive x); split; congruence.
Qed.

Lemma is_live_forget (h : handle) (w : world) : is_live h (forget h w) = false.
Proof.
  unfold is_live, forget; simpl.
  induction (live w) as [|a l IH]; simpl; [reflexivity|].
  destruct (Nat.eqb h a) eqn:E; simpl; [exact IH|].
  rewrite E. exact IH.
Qed.

(** The window and the rate update. *)

Lemma fps_update_spec (w : list Q) (old : Q) :
  ((2 <= length w)%nat /\ (0 < last w 0 - hd 0 w)%Q ->
     fps_update w old
     = (inject_Z (Z.of_nat (length w) - 1) / (last w 0 - hd 0 w))%Q) /\
  (~ ((2 <= length w)%nat /\ (0 < last w 0 - hd 0 w)%Q) ->
     fps_update w old = old).
Proof.
  unfold fps_update. split.
  - intros [Hlen Hpos].
    destruct (2 <=? Z.of_nat (length w)) eqn:E; [|apply Z.leb_gt in E; lia].
    apply Qpositive_iff in Hpos. rewrite Hpos. reflexivity.
  - intros Hn.
    destruct (2 <=? Z.of_nat (length w)) eqn:E; [|reflexivity].
    destruct (Qpositive (last w 0 - hd 0 w)%Q) eqn:P; [|reflexivity].
    exfalso. apply Hn. split; [apply Z.leb_le in E; lia | apply Qpositive_iff; exact P].
Qed.

Lemma fps_update_short (w : list Q) (old : Q) :
  (length w < 2)%nat -> fps_update w old = old.
Proof.
  intros H. apply (proj2 (fps_update_spec w old)). intros [H2 _]. lia.
Qed.

Lemma window_push_lastn (n : nat) (w : list Q) (now : Q) :
  (0 < n)%nat ->
  window_push (Z.of_nat n) w now = lastn n (w ++ [now]).
Proof.
  intros Hn. unfold window_push, lastn, slice_from.
  destruct (Z.of_nat (length (w ++ [now])) >? Z.of_nat n) eqn:E.
  - apply Z.gtb_lt in E.
    destruct (- Z.of_nat n <? 0) eqn:E2; [|apply Z.ltb_ge in E2; lia].
    f_equal. lia.
  - rewrite Z.gtb_ltb in E. apply Z.ltb_ge in E.
    replace (length (w ++ [now]) - n)%nat with 0%nat by lia. reflexivity.
Qed.

Lemma lastn_length {A} (n : nat) (l : list A) :
  (length (lastn n l) <= n)%nat.
Proof.
  unfold lastn. rewrite length_skipn. lia.
Qed.

Lemma lastn_0 {A} (l : list A) : lastn 0 l = [].
Proof.
  unfold lastn. rewrite Nat.sub_0_r. apply skipn_all.
Qed.

Lemma lastn_app_lastn {A} (n : nat) (l : list A) (x : A) :
  lastn n (lastn n l ++ [x]) = lastn n (l ++ [x]).
Proof.
  destruct n as [|n]; [rewrite !lastn_0; reflexivity|].
  unfold lastn. rewrite !length_app, length_skipn. simpl.
  destruct (Nat.le_gt_cases (length l) (S n)) as [Hle|Hgt].
  - replace (length l - S n)%nat with 0%nat by lia. simpl.
    replace (length l - 0 + 1 - S n)%nat with (length l + 1 - S n)%nat by lia.
    reflexivity.
  - replace (length l - (length l - S n) + 1 - S n)%nat with 1%nat by lia.
    replace (length l + 1 - S n)%nat with (S (length l - S n)) by lia.
    rewrite skipn_app.
    rewrite length_skipn.
    replace (1 - (length l - (length l - S n)))%nat with 0%nat by lia.
    rewrite (skipn_app (S (length l - S n)) l [x]).
    replace (S (length l - S n) - length l)%nat with 0%nat by lia.
    rewrite skipn_skipn. rewrite skipn_O.
    replace (1 + (length l - S n))%nat with (S (length l - S n)) by lia.
    reflexivity.
Qed.

(** ** Invariants along a sequence of calls *)

Section CallsFacts.

Context {St : Type} {cam : Camera St}.
Variable allowed : op St -> St -> bool.
Variable Inv : St -> Prop.
Hypothesis exec_inv :
  forall o s, Inv s -> allowed o s = true -> Inv (exec o s).

Lemma states_inv : forall ops s,
  Inv s -> admissible allowed ops s = true -> Forall Inv (states ops s).
Proof.
  induction ops as [|o ops IH]; intros s Hs Hadm; simpl.
  - constructor; [exact Hs | constructor].
  - simpl in Hadm. apply andb_true_iff in Hadm. destruct Hadm as [Ho Hrest].
    constructor; [exact Hs |].
    apply IH; [apply exec_inv; assumption | exact Hrest].
Qed.

Lemma run_inv : forall ops s,
  Inv s -> admissible allowed ops s = true -> Inv (run ops s).
Proof.
  induction ops as [|o ops IH]; intros s Hs Hadm; simpl.
  - exact Hs.
  - simpl in Hadm. apply andb_true_iff in Hadm. destruct Hadm as [Ho Hrest].
    apply IH; [apply exec_inv; assumption | exact Hrest].
Qed.

Lemma run_app (a b : list (op St)) (s : St) :
  run (a ++ b) s = run b (run a s).
Proof.
  revert s. induction a as [|o a IH]; intros s; simpl; [reflexivity | apply IH].
Qed.

End CallsFacts.

(** ** Facts about the USB backend *)

Module USBFacts.
Import USBCamera.

Lemma usb_cleanup_facts (rel : call unit) (s : st) :
  fst (_cleanup rel s) = Ret tt /\
  _cap (fst (snd (_cleanup rel s))) = None /\
  set_cap None (fst (snd (_cleanup rel s))) = set_cap None (fst s) /\
  snd (snd (_cleanup rel s))
  = match _cap (fst s) with
    | Some h => forget h (snd s)
    | None => snd s
    end.
Proof.
  destruct s as [c w]. unfold _cleanup, release, self_upd. unfold_py. simpl.
  destruct (_cap c) as [h|] eqn:Hc; simpl.
  - destruct rel as [[]|ex]; simpl; repeat split; reflexivity.
  - repeat split; try assumption.
Qed.

Lemma usb_open_result (e : open_env) (s : st) :
  fst (open e s) = Ret true \/ fst (open e s) = Ret false.
Proof.
  destruct s as [c w].
  unfold open, VideoCapture, isOpened, _cleanup, release, self_upd.
  unfold_py. cases; auto.
Qed.


Ltac usb_run_open :=
  unfold open, VideoCapture, isOpened, _cleanup, release, self_upd;
  unfold_py; cases.

(** What [open()] leaves in the tracking fields. *)
Lemma usb_open_tracking (e : open_env) (s : st) :
  _measured_fps (fst (snd (open e s))) = _measured_fps (fst s) /\
  _fps_window (fst (snd (open e s))) = _fps_window (fst s) /\
  (fst (open e s) = Ret true ->
     _sequence (fst (snd (open e s))) = 0 /\
     _frame_times (fst (snd (open e s))) = []) /\
  (fst (open e s) = Ret false ->
     _sequence (fst (snd (open e s))) = _sequence (fst s) /\
     _frame_times (fst (snd (open e s))) = _frame_times (fst s)).
Proof.
  destruct s as [c w]. usb_run_open;
    repeat split; intros; try discriminate; reflexivity.
Qed.

(** [is_open()] agrees with what [open()] returned. *)
Lemma usb_open_is_open (e : open_env) (s : st) :
  fst (open e s) = Ret (is_open (snd (open e s))).
Proof.
  destruct s as [c w]. unfold is_open. usb_run_open;
    try congruence;
    try (rewrite is_live_forget; reflexivity);
    try (match goal with H : negb ?b = _ |- _ =>
           destruct b eqn:?; simpl in H; try discriminate end;
         unfold alloc in *; simpl in *; congruence).
Qed.


(** [read()] either changes nothing and returns [None], or changes
    nothing and raises what [cap.isOpened()] raised, or captured an image:
    then the tracking fields are updated and the frame is built from the
    new sequence number. *)
Lemma usb_read_facts (e : read_env) (s : st) :
  read e s = (Ret None, s) \/
  (exists ex,
     _cap (fst s) <> None /\ r_isOpened e = Raise ex /\
     read e s = (Raise ex, s)) \/
  exists bgr_array,
    r_read e = Ret (true, Some bgr_array) /\
    is_open s = true /\
    snd (read e s)
    = (set_tracking (_sequence (fst s) + 1)
         (window_push (_fps_window (fst s)) (_frame_times (fst s)) (r_time e))
         (fps_update
            (window_push (_fps_window (fst s)) (_frame_times (fst s)) (r_time e))
            (_measured_fps (fst s)))
         (fst s),
       snd s) /\
    fst (read e s)
    = match Frame.create bgr_array (_sequence (fst s) + 1) None (r_now e) with
      | Ret f => Ret (Some f)
      | Raise _ => Ret None
      end /\
    r_isOpened e = Ret tt.
Proof.
  destruct s as [c w].
  unfold read, is_open_call, isOpened, is_open, self_upd. unfold_py. simpl.
  destruct (_cap c) as [h|] eqn:Hc; simpl; [|left; reflexivity].
  destruct (r_isOpened e) as [[]|ex] eqn:Hi; simpl.
  2:{ right; left. exists ex. repeat split; congruence. }
  destruct (is_live h w) eqn:Ho; simpl; [|left; reflexivity].
  destruct (r_read e) as [[ok [a|]]|ex] eqn:Hr; simpl;
    try (left; reflexivity); try (destruct ok; left; reflexivity).
  destruct ok; [|left; reflexivity].
  right; right. exists a. split; [reflexivity|]. split; [reflexivity|].
  cbn [fst snd].
  destruct (Frame.create a (_sequence c + 1) None (r_now e));
    repeat split; reflexivity.
Qed.

(** Whatever it returns or raises, a [read()] leaves the state as it was
    unless it captured an image. *)
Lemma usb_read_state (e : read_env) (s : st) :
  snd (read e s) = s \/
  exists bgr_array,
    r_read e = Ret (true, Some bgr_array) /\
    is_open s = true /\
    snd (read e s)
    = (set_tracking (_sequence (fst s) + 1)
         (window_push (_fps_window (fst s)) (_frame_times (fst s)) (r_time e))
         (fps_update
            (window_push (_fps_window (fst s)) (_frame_times (fst s)) (r_time e))
            (_measured_fps (fst s)))
         (fst s),
       snd s).
Proof.
  destruct (usb_read_facts e s) as [H|[(ex & _ & _ & H)|(a & H1 & H2 & H3 & _)]].
  - left. rewrite H. reflexivity.
  - left. rewrite H. reflexivity.
  - right. exists a. auto.
Qed.

Lemma create_facts (a : ndarray) (n : Z) (ts : option string) (now : string) :
  match Frame.create a n ts now with
  | Ret f =>
      Frame.data f = a /\ Frame.sequence f = n /\
      (2 <= length (shape a))%nat /\
      Frame.height f = nth 0 (shape a) 0%nat /\
      Frame.width f = nth 1 (shape a) 0%nat
  | Raise _ => (length (shape a) < 2)%nat
  end.
Proof.
  unfold Frame.create. destruct (shape a) as [|h [|w rest]]; simpl; try lia.
  repeat split; lia.
Qed.

Lemma usb_close_facts (rel : call unit) (s : st) :
  fst (close rel s) = Ret tt /\
  is_open (snd (close rel s)) = false /\
  _sequence (fst (snd (close rel s))) = _sequence (fst s) /\
  _frame_times (fst (snd (close rel s))) = _frame_times (fst s) /\
  _measured_fps (fst (snd (close rel s))) = _measured_fps (fst s) /\
  _fps_window (fst (snd (close rel s))) = _fps_window (fst s).
Proof.
  destruct s as [c w]. unfold close, is_open, _cleanup, release, self_upd.
  unfold_py. simpl.
  destruct (_cap c) as [h|] eqn:Hc; simpl.
  - destruct rel; simpl; repeat split; reflexivity.
  - rewrite Hc. repeat split; reflexivity.
Qed.

(** Handles do not pile up when [open()] is called on a closed device. *)
Lemma usb_exec_sole_owner (o : op USBCamera.st) (s : st) :
  sole_owner (_cap (fst s)) (snd s) = true ->
  open_on_closed o s = true ->
  sole_owner (_cap (fst (exec o s))) (snd (exec o s)) = true.
Proof.
  destruct s as [c [lv nx]]. unfold open_on_closed, sole_owner. simpl.
  intros Hown Hal. destruct o as [e|e|rel]; simpl.
  - simpl in Hal. apply negb_true_iff in Hal.
    unfold is_open, is_live in Hal. simpl in Hal.
    assert (lv = []) as ->.
    { destruct lv as [|h' [|h'' lv]]; try reflexivity; try discriminate.
      destruct (_cap c) as [h|]; try discriminate.
      simpl in Hal. rewrite Hown in Hal. discriminate. }
    clear Hown Hal.
    unfold is_live, alloc, forget. usb_run_open;
      unfold is_live, alloc, forget in *; simpl in *;
      repeat match goal with
             | H : (_, _) = (_, _) |- _ => inversion H; subst; clear H
             end; simpl;
      rewrite ?Nat.eqb_refl in *; simpl in *;
      try reflexivity; try congruence.
  - destruct (usb_read_state e (c, {| live := lv; next_handle := nx |}))
      as [H|[a [_ [_ H]]]]; rewrite H; simpl; exact Hown.
  - destruct (usb_cleanup_facts rel (c, {| live := lv; next_handle := nx |}))
      as [_ [Hc [_ Hw]]].
    unfold close. rewrite Hc, Hw. simpl.
    destruct (_cap c) as [h|]; simpl.
    + destruct lv as [|h' [|h'' lv]]; try reflexivity; try discriminate.
      simpl. rewrite Hown. reflexivity.
    + destruct lv as [|h' [|h'' lv]]; try reflexivity; try discriminate.
Qed.

End USBFacts.

(** ** Facts about the integrated-camera backend *)

Module PiFacts.
Import PiCamera.

Ltac pi_run_open :=
  unfold open, Picamera2, _cleanup, picam_close, self_upd;
  unfold_py; cases.

Lemma pi_open_result (e : open_env) (s : st) :
  fst (open e s) = Ret true \/ fst (open e s) = Ret false.
Proof.
  destruct s as [c w]. pi_run_open; auto.
Qed.

Lemma pi_open_tracking (e : open_env) (s : st) :
  _measured_fps (fst (snd (open e s))) = _measured_fps (fst s) /\
  _fps_window (fst (snd (open e s))) = _fps_window (fst s) /\
  (fst (open e s) = Ret true ->
     _sequence (fst (snd (open e s))) = 0 /\
     _frame_times (fst (snd (open e s))) = [] /\
     is_open (snd (open e s)) = true) /\
  (fst (open e s) = Ret false ->
     _sequence (fst (snd (open e s))) = _sequence (fst s) /\
     _frame_times (fst (snd (open e s))) = _frame_times (fst s)).
Proof.
  destruct s as [c w]. unfold is_open. pi_run_open;
    repeat split; intros; try discriminate; reflexivity.
Qed.

(** A failure that is not an [ImportError] runs [_cleanup()]. *)
Lemma pi_open_false_cleaned (e : open_env) (s : st) :
  o_import_picamera2 e <> Raise ImportError ->
  o_Picamera2 e <> Raise ImportError ->
  o_create_video_configuration e <> Raise ImportError ->
  o_configure e <> Raise ImportError ->
  o_start e <> Raise ImportError ->
  fst (open e s) = Ret false ->
  is_open (snd (open e s)) = false.
Proof.
  destruct s as [c w]. unfold is_open. intros H1 H2 H3 H4 H5.
  pi_run_open; intros; try congruence; try reflexivity.
Qed.

Lemma reverse_axis2_shape (a b : ndarray) :
  reverse_axis2 a = Ret b -> shape b = shape a /\ (3 <= length (shape a))%nat.
Proof.
  unfold reverse_axis2.
  destruct (shape a) as [|h [|w [|c rest]]] eqn:Hs; try discriminate.
  intros H. inversion H; subst; simpl. split; [congruence | lia].
Qed.

Lemma reverse_axis2_fails (a : ndarray) (ex : exn) :
  reverse_axis2 a = Raise ex -> (length (shape a) < 3)%nat.
Proof.
  unfold reverse_axis2.
  destruct (shape a) as [|h [|w [|c rest]]] eqn:Hs; try discriminate; simpl; lia.
Qed.

Lemma pi_read_facts (e : read_env) (s : st) :
  read e s = (Ret None, s) \/
  exists rgb_array bgr_array f,
    r_capture_array e = Ret rgb_array /\
    reverse_axis2 rgb_array = Ret bgr_array /\
    is_open s = true /\
    Frame.create bgr_array (_sequence (fst s) + 1) None (r_now e) = Ret f /\
    read e s
    = (Ret (Some f),
       (set_tracking (_sequence (fst s) + 1)
          (window_push (_fps_window (fst s)) (_frame_times (fst s)) (r_time e))
          (fps_update
             (window_push (_fps_window (fst s)) (_frame_times (fst s)) (r_time e))
             (_measured_fps (fst s)))
          (fst s),
        snd s)).
Proof.
  destruct s as [c w]. unfold read, self_upd. unfold_py. simpl.
  destruct (is_open (c, w)) eqn:Ho; simpl; [|left; reflexivity].
  destruct (r_capture_array e) as [rgb|ex] eqn:Hr; simpl; [|left; reflexivity].
  destruct (reverse_axis2 rgb) as [bgr|ex] eqn:Hb; simpl; [|left; reflexivity].
  right.
  destruct (reverse_axis2_shape _ Hb) as [Hsh Hlen].
  pose proof (USBFacts.create_facts bgr (_sequence c + 1) None (r_now e)) as Hf.
  destruct (Frame.create bgr (_sequence c + 1) None (r_now e)) as [f|ex] eqn:Hc.
  - exists rgb, bgr, f. repeat split; try assumption; reflexivity.
  - rewrite Hsh in Hf. lia.
Qed.

Lemma pi_close_facts (e : cleanup_env) (s : st) :
  fst (close e s) = Ret tt /\
  is_open (snd (close e s)) = false /\
  _sequence (fst (snd (close e s))) = _sequence (fst s) /\
  _frame_times (fst (snd (close e s))) = _frame_times (fst s) /\
  _measured_fps (fst (snd (close e s))) = _measured_fps (fst s) /\
  _fps_window (fst (snd (close e s))) = _fps_window (fst s).
Proof.
  destruct s as [c w]. unfold close, is_open, _cleanup, picam_close, self_upd.
  unfold_py. simpl.
  destruct (_picam c) as [h|] eqn:Hc; simpl.
  - destruct (c_stop e); simpl; [destruct (c_close e); simpl|];
      repeat split; reflexivity.
  - rewrite Hc. repeat split; reflexivity.
Qed.

Lemma pi_exec_sole_owner (o : op PiCamera.st) (s : st) :
  sole_owner (_picam (fst s)) (snd s) = true ->
  pi_allowed o s = true ->
  sole_owner (_picam (fst (exec o s))) (snd (exec o s)) = true.
Proof.
  destruct s as [c [lv nx]]. unfold pi_allowed, open_on_closed, sole_owner.
  simpl. intros Hown Hal. apply andb_true_iff in Hal.
  destruct Hal as [Hal Hstop].
  assert (Hret : forall c0 : call unit, returns c0 = true -> c0 = Ret tt).
  { intros [[]|ex] H; [reflexivity | discriminate]. }
  destruct o as [e|e|e]; simpl in *; try apply Hret in Hstop.
  - apply negb_true_iff in Hal. unfold is_open in Hal. simpl in Hal.
    destruct (_picam c) as [h|] eqn:Hp; [discriminate|].
    assert (lv = []) as ->.
    { destruct lv as [|h' [|h'' lv]]; try reflexivity; discriminate. }
    clear Hown Hal.
    unfold open, Picamera2, _cleanup, picam_close, self_upd.
    unfold_py. simpl. rewrite Hstop. simpl.
    unfold alloc, forget. cases;
      repeat match goal with
             | H : (_, _) = (_, _) |- _ => inversion H; subst; clear H
             end; simpl in *;
      rewrite ?Nat.eqb_refl in *; simpl in *;
      try reflexivity; try congruence.
  - destruct (pi_read_facts e (c, {| live := lv; next_handle := nx |}))
      as [H|[a [b [f [_ [_ [_ [_ H]]]]]]]]; rewrite H; simpl; exact Hown.
  - unfold close, _cleanup, picam_close, self_upd. unfold_py. simpl.
    rewrite Hstop.
    destruct (_picam c) as [h|] eqn:Hp; simpl.
    + destruct (c_close e); simpl;
        (destruct lv as [|h' [|h'' lv]]; try reflexivity; try discriminate;
         simpl; rewrite Hown; reflexivity).
    + rewrite Hp. exact Hown.
Qed.

End PiFacts.

(** * The properties of the specification *)

(** ** C1: a failed [open()] and the handle *)

(** Supporting fact: the USB backend never raises from [open()], and after
    [open()] returned false the device is not open. *)
Lemma usb_open_false_not_open (e : USBCamera.open_env) (s : USBCamera.st) :
  (fst (USBCamera.open e s) = Ret true \/ fst (USBCamera.open e s) = Ret false) /\
  (fst (USBCamera.open e s) = Ret false ->
   USBCamera.is_open (snd (USBCamera.open e s)) = false).
Proof.
  split; [apply USBFacts.usb_open_result|].
  intros H. pose proof (USBFacts.usb_open_is_open e s) as Ho.
  rewrite H in Ho. inversion Ho. reflexivity.
Qed.

(** C1 (the code departs from the claim).  On the integrated-camera
    backend the handler of [ImportError] returns false without calling
    [_cleanup()].  When the driver is imported, the camera object is built
    and stored, and a later call of the [try] body raises an [ImportError],
    [open()] returns false while the device still holds the camera: the
    handle is live in the driver, [_picam] refers to it and [is_open()] is
    true. *)
Theorem C1_import_error_handler_keeps_handle :
  fst (PiCamera.open pi_open_late_import_error pi0) = Ret false /\
  PiCamera._picam (fst (snd (PiCamera.open pi_open_late_import_error pi0)))
  = Some 0%nat /\
  live (snd (snd (PiCamera.open pi_open_late_import_error pi0))) = [0%nat] /\
  PiCamera.is_open (snd (PiCamera.open pi_open_late_import_error pi0)) = true.
Proof.
  vm_compute. repeat split.
Qed.

(** ** C2: at most one live handle *)

(** C2 (counterexample).  [open()] on a USB device that is already open
    builds a second capture and overwrites [_cap]: [release()] is not
    called on the first one, and two handles are live. *)
Lemma C2_reopen_leaves_two_handles :
  USBCamera.is_open (snd (USBCamera.open usb_open_ok usb0)) = true /\
  fst (USBCamera.open usb_open_ok (snd (USBCamera.open usb_open_ok usb0)))
  = Ret true /\
  live (snd (snd (USBCamera.open usb_open_ok
                    (snd (USBCamera.open usb_open_ok usb0)))))
  = [1%nat; 0%nat] /\
  ~ (length (live (snd (snd (USBCamera.open usb_open_ok
                               (snd (USBCamera.open usb_open_ok usb0)))))) <= 1)%nat.
Proof.
  vm_compute. repeat split. intros H.
  apply (proj1 (Nat.le_ngt 2 1) H). constructor.
Qed.

(** C2 (amended).  In every sequence of [open()], [read()] and [close()]
    calls in which [open()] is only called while the device is not open
    (and, on the integrated camera, [stop()] does not raise during
    cleanup), at most one handle is live at any time, and it is the one the
    device refers to.  [open()] itself releases nothing beforehand. *)
Theorem C2_single_handle_if_open_on_closed :
  (forall (ops : list (op USBCamera.st)) (s : USBCamera.st),
     sole_owner (USBCamera._cap (fst s)) (snd s) = true ->
     admissible open_on_closed ops s = true ->
     Forall (fun s' : USBCamera.st =>
               (length (live (snd s')) <= 1)%nat /\
               sole_owner (USBCamera._cap (fst s')) (snd s') = true)
            (states ops s)) /\
  (forall (ops : list (op PiCamera.st)) (s : PiCamera.st),
     sole_owner (PiCamera._picam (fst s)) (snd s) = true ->
     admissible pi_allowed ops s = true ->
     Forall (fun s' : PiCamera.st =>
               (length (live (snd s')) <= 1)%nat /\
               sole_owner (PiCamera._picam (fst s')) (snd s') = true)
            (states ops s)).
Proof.
  assert (Hlen : forall held w, sole_owner held w = true ->
                                (length (live w) <= 1)%nat).
  { intros held w. unfold sole_owner.
    destruct (live w) as [|h [|h' l]]; simpl; intros; try discriminate; lia. }
  split; intros ops s Hs Hadm.
  - eapply Forall_impl;
      [| apply (states_inv open_on_closed
                  (fun s' => sole_owner (USBCamera._cap (fst s')) (snd s') = true)
                  USBFacts.usb_exec_sole_owner ops s Hs Hadm)].
    intros s' H. split; [eapply Hlen; exact H | exact H].
  - eapply Forall_impl;
      [| apply (states_inv pi_allowed
                  (fun s' => sole_owner (PiCamera._picam (fst s')) (snd s') = true)
                  PiFacts.pi_exec_sole_owner ops s Hs Hadm)].
    intros s' H. split; [eapply Hlen; exact H | exact H].
Qed.

Lemma C2_single_handle_witness :
  Forall (fun s' : USBCamera.st =>
            (length (live (snd s')) <= 1)%nat /\
            sole_owner (USBCamera._cap (fst s')) (snd s') = true)
         (states usb_epoch_then_reopen usb0) /\
  Forall (fun s' : PiCamera.st =>
            (length (live (snd s')) <= 1)%nat /\
            sole_owner (PiCamera._picam (fst s')) (snd s') = true)
         (states pi_epoch_then_reopen pi0).
Proof.
  split.
  - apply (proj1 C2_single_handle_if_open_on_closed usb_epoch_then_reopen usb0).
    + reflexivity.
    + vm_compute. reflexivity.
  - apply (proj2 C2_single_handle_if_open_on_closed pi_epoch_then_reopen pi0).
    + reflexivity.
    + vm_compute. reflexivity.
Defined.

(** ** C3: what [measured_fps] is *)

(** C3 (counterexample).  A USB device is opened, read at times 0 and 1
    (rate 1), closed and opened again: the window is empty, and the rate
    reported is still 1, not 0. *)
Lemma C3_rate_kept_after_reopen :
  USBCamera._frame_times (fst (run usb_epoch_then_reopen usb0)) = [] /\
  USBCamera.fps (fst (run usb_epoch_then_reopen usb0)) = 1%Q /\
  ~ (USBCamera.fps (fst (run usb_epoch_then_reopen usb0)) == 0)%Q.
Proof.
  vm_compute. repeat split. intros H. discriminate H.
Qed.

(** C3 (amended).  [measured_fps] is a stored value.  It is 0 when the
    device is built.  [open()] and [close()] leave it as it is, also when
    [open()] empties the window.  A [read()] either leaves the device as it
    is, or appends its timestamp to the window; then, if the window holds
    at least two timestamps and its newest is later than its oldest, the
    rate becomes (count - 1) / (newest - oldest), and otherwise the rate
    keeps its previous value. *)
Theorem C3_measured_fps_is_stored :
  ((forall d w h f r, USBCamera.fps (USBCamera.init d w h f r) = 0%Q) /\
   (forall e s, USBCamera.fps (fst (snd (USBCamera.open e s)))
                = USBCamera.fps (fst s)) /\
   (forall rel s, USBCamera.fps (fst (snd (USBCamera.close rel s)))
                  = USBCamera.fps (fst s)) /\
   (forall e s,
      snd (USBCamera.read e s) = s \/
      let s' := snd (USBCamera.read e s) in
      let w := USBCamera._frame_times (fst s') in
      w = window_push (USBCamera._fps_window (fst s))
            (USBCamera._frame_times (fst s)) (USBCamera.r_time e) /\
      ((2 <= length w)%nat /\ (0 < last w 0 - hd 0 w)%Q ->
       USBCamera.fps (fst s')
       = (inject_Z (Z.of_nat (length w) - 1) / (last w 0 - hd 0 w))%Q) /\
      (~ ((2 <= length w)%nat /\ (0 < last w 0 - hd 0 w)%Q) ->
       USBCamera.fps (fst s') = USBCamera.fps (fst s)))) /\
  ((forall w h f d r, PiCamera.fps (PiCamera.init w h f d r) = 0%Q) /\
   (forall e s, PiCamera.fps (fst (snd (PiCamera.open e s)))
                = PiCamera.fps (fst s)) /\
   (forall e s, PiCamera.fps (fst (snd (PiCamera.close e s)))
                = PiCamera.fps (fst s)) /\
   (forall e s,
      snd (PiCamera.read e s) = s \/
      let s' := snd (PiCamera.read e s) in
      let w := PiCamera._frame_times (fst s') in
      w = window_push (PiCamera._fps_window (fst s))
            (PiCamera._frame_times (fst s)) (PiCamera.r_time e) /\
      ((2 <= length w)%nat /\ (0 < last w 0 - hd 0 w)%Q ->
       PiCamera.fps (fst s')
       = (inject_Z (Z.of_nat (length w) - 1) / (last w 0 - hd 0 w))%Q) /\
      (~ ((2 <= length w)%nat /\ (0 < last w 0 - hd 0 w)%Q) ->
       PiCamera.fps (fst s') = PiCamera.fps (fst s)))).
Proof.
  split; repeat split.
  - intros e s. apply (USBFacts.usb_open_tracking e s).
  - intros rel s. apply (USBFacts.usb_close_facts rel s).
  - intros e s.
    destruct (USBFacts.usb_read_state e s) as [H|[a [_ [_ H]]]].
    + left. rewrite H. reflexivity.
    + right. rewrite H. cbn [fst snd]. unfold USBCamera.fps. simpl.
      split; [reflexivity|]. apply fps_update_spec.
  - intros e s. apply (PiFacts.pi_open_tracking e s).
  - intros e s. apply (PiFacts.pi_close_facts e s).
  - intros e s.
    destruct (PiFacts.pi_read_facts e s) as [H|[a [b [f [_ [_ [_ [_ H]]]]]]]].
    + left. rewrite H. reflexivity.
    + right. rewrite H. cbn [fst snd]. unfold PiCamera.fps. simpl.
      split; [reflexivity|]. apply fps_update_spec.
Qed.

Lemma C3_measured_fps_witness :
  (2 <= length (USBCamera._frame_times
                  (fst (snd (USBCamera.read (usb_read_at 1)
                               (run
                                  [USB_Open usb_open_ok;
                                   USB_Read (usb_read_at 0)] usb0))))))%nat /\
  USBCamera.fps
    (fst (snd (USBCamera.read (usb_read_at 1)
                 (run
                    [USB_Open usb_open_ok; USB_Read (usb_read_at 0)] usb0))))
  = (inject_Z (Z.of_nat 2 - 1) / (1 - 0))%Q.
Proof.
  split; [vm_compute; lia|].
  destruct (proj2 (proj2 (proj2 (proj1 C3_measured_fps_is_stored)))
              (usb_read_at 1)
              (run
                 [USB_Open usb_open_ok; USB_Read (usb_read_at 0)] usb0))
    as [H|[_ [H _]]].
  - vm_compute in H. discriminate H.
  - apply H. split; [vm_compute; lia | vm_compute; reflexivity].
Defined.

(** ** C5: the sequence counter across [open()] *)

(** C5 (counterexample).  A USB device is opened, read three times and
    closed; the camera is then unplugged and [open()] returns false: the
    counter is still 3. *)
Lemma C5_failed_open_keeps_sequence :
  fst (USBCamera.open usb_open_absent
         (run usb_three_reads_closed usb0)) = Ret false /\
  USBCamera._sequence
    (fst (snd (USBCamera.open usb_open_absent
                 (run usb_three_reads_closed usb0)))) = 3 /\
  USBCamera._sequence
    (fst (snd (USBCamera.open usb_open_absent
                 (run usb_three_reads_closed usb0)))) <> 0.
Proof.
  vm_compute. repeat split; discriminate.
Qed.

(** C5 (amended).  On both backends an [open()] that returns true leaves
    the sequence counter at 0, whatever it was before; an [open()] that
    returns false leaves the counter as it was. *)
Theorem C5_sequence_reset_by_successful_open :
  (forall e s,
     (fst (USBCamera.open e s) = Ret true ->
      USBCamera._sequence (fst (snd (USBCamera.open e s))) = 0) /\
     (fst (USBCamera.open e s) = Ret false ->
      USBCamera._sequence (fst (snd (USBCamera.open e s)))
      = USBCamera._sequence (fst s))) /\
  (forall e s,
     (fst (PiCamera.open e s) = Ret true ->
      PiCamera._sequence (fst (snd (PiCamera.open e s))) = 0) /\
     (fst (PiCamera.open e s) = Ret false ->
      PiCamera._sequence (fst (snd (PiCamera.open e s)))
      = PiCamera._sequence (fst s))).
Proof.
  split; intros e s.
  - destruct (USBFacts.usb_open_tracking e s) as [_ [_ [Ht Hf]]].
    split; intros H; [apply (Ht H) | apply (Hf H)].
  - destruct (PiFacts.pi_open_tracking e s) as [_ [_ [Ht Hf]]].
    split; intros H; [apply (Ht H) | apply (Hf H)].
Qed.

Lemma C5_sequence_reset_witness :
  USBCamera._sequence
    (fst (snd (USBCamera.open usb_open_ok
                 (run usb_three_reads_closed usb0)))) = 0 /\
  PiCamera._sequence (fst (snd (PiCamera.open pi_open_ok pi0))) = 0.
Proof.
  split.
  - apply (proj1 (proj1 C5_sequence_reset_by_successful_open usb_open_ok
                    (run usb_three_reads_closed usb0))).
    vm_compute. reflexivity.
  - apply (proj1 (proj2 C5_sequence_reset_by_successful_open pi_open_ok pi0)).
    vm_compute. reflexivity.
Defined.

(** ** C6: the frames of one capture epoch *)

(** Why the images of the USB backend are taken to have two axes: were an
    array with one axis delivered, [Frame.create] would raise after the
    counter and the window were updated, and [read()] would return [None]
    with the counter advanced.  cv2 builds its images from matrices, which
    have at least two axes. *)
Lemma usb_read_one_axis_array :
  fst (USBCamera.read usb_read_one_axis (snd (USBCamera.open usb_open_ok usb0)))
  = Ret None /\
  USBCamera._sequence
    (fst (snd (USBCamera.read usb_read_one_axis
                 (snd (USBCamera.open usb_open_ok usb0))))) = 1 /\
  usb_image_read usb_read_one_axis = false.
Proof.
  vm_compute. repeat split.
Qed.











(** ** C7: the rolling window *)

Lemma usb_read_captured (e : USBCamera.read_env) (s : USBCamera.st) (a : ndarray) :
  USBCamera.is_open s = true ->
  USBCamera.r_isOpened e = Ret tt ->
  USBCamera.r_read e = Ret (true, Some a) ->
  snd (USBCamera.read e s)
  = (USBCamera.set_tracking (USBCamera._sequence (fst s) + 1)
       (window_push (USBCamera._fps_window (fst s))
          (USBCamera._frame_times (fst s)) (USBCamera.r_time e))
       (fps_update
          (window_push (USBCamera._fps_window (fst s))
             (USBCamera._frame_times (fst s)) (USBCamera.r_time e))
          (USBCamera._measured_fps (fst s)))
       (fst s),
     snd s).
Proof.
  intros Ho Hi Hr. destruct s as [c w].
  unfold USBCamera.read, USBCamera.is_open_call, USBCamera.isOpened,
    USBCamera.is_open, USBCamera.self_upd in *.
  unfold_py. simpl in *.
  destruct (USBCamera._cap c) as [h|]; [|discriminate].
  rewrite Hi. simpl. rewrite Ho, Hr. simpl.
  destruct (Frame.create a (USBCamera._sequence c + 1) None (USBCamera.r_now e));
    reflexivity.
Qed.

Lemma pi_read_captured (e : PiCamera.read_env) (s : PiCamera.st) (a b : ndarray) :
  PiCamera.is_open s = true ->
  PiCamera.r_capture_array e = Ret a ->
  reverse_axis2 a = Ret b ->
  snd (PiCamera.read e s)
  = (PiCamera.set_tracking (PiCamera._sequence (fst s) + 1)
       (window_push (PiCamera._fps_window (fst s))
          (PiCamera._frame_times (fst s)) (PiCamera.r_time e))
       (fps_update
          (window_push (PiCamera._fps_window (fst s))
             (PiCamera._frame_times (fst s)) (PiCamera.r_time e))
          (PiCamera._measured_fps (fst s)))
       (fst s),
     snd s).
Proof.
  intros Ho Hr Hb. destruct s as [c w].
  unfold PiCamera.read, PiCamera.self_upd. unfold_py. simpl.
  rewrite Ho, Hr. simpl. rewrite Hb. simpl.
  destruct (Frame.create b (PiCamera._sequence c + 1) None (PiCamera.r_now e));
    reflexivity.
Qed.

Lemma usb_reads_window (es : list USBCamera.read_env) (s : USBCamera.st) :
  USBCamera._fps_window (fst s) = 30 ->
  USBCamera._frame_times (fst s) = [] ->
  USBCamera.is_open s = true ->
  forallb usb_captured es = true ->
  let s' := run (map USB_Read es) s in
  USBCamera._fps_window (fst s') = 30 /\
  USBCamera.is_open s' = true /\
  USBCamera._frame_times (fst s') = lastn 30 (map USBCamera.r_time es).
Proof.
  change (@read_env USBCamera.st USB_Camera) with USBCamera.read_env.
  intros Hw Ht Ho. induction es as [|e es IH] using rev_ind; intros Hc; simpl.
  - repeat split; try assumption; rewrite Ht; reflexivity.
  - rewrite forallb_app in Hc. apply andb_true_iff in Hc.
    destruct Hc as [Hes Hcap]. simpl in Hcap. rewrite andb_true_r in Hcap.
    destruct (IH Hes) as [Hw' [Ho' Ht']].
    rewrite map_app, run_app. cbn [map run exec].
    change (@cam_read _ USB_Camera) with USBCamera.read.
    unfold usb_captured in Hcap.
    destruct (USBCamera.r_isOpened e) as [[]|] eqn:Hi; try discriminate.
    destruct (USBCamera.r_read e) as [[[|] [a|]]|] eqn:Hr; try discriminate.
    rewrite (usb_read_captured e _ Ho' Hi Hr). cbn [fst snd].
    repeat split.
    + exact Hw'.
    + unfold USBCamera.is_open in *. exact Ho'.
    + simpl. rewrite Hw', Ht'.
      rewrite (window_push_lastn (n:=30)) by lia.
      rewrite lastn_app_lastn, map_app. reflexivity.
Qed.

Lemma pi_reads_window (es : list PiCamera.read_env) (s : PiCamera.st) :
  PiCamera._fps_window (fst s) = 30 ->
  PiCamera._frame_times (fst s) = [] ->
  PiCamera.is_open s = true ->
  forallb pi_captured es = true ->
  let s' := run (map Pi_Read es) s in
  PiCamera._fps_window (fst s') = 30 /\
  PiCamera.is_open s' = true /\
  PiCamera._frame_times (fst s') = lastn 30 (map PiCamera.r_time es).
Proof.
  change (@read_env PiCamera.st Pi_Camera) with PiCamera.read_env.
  intros Hw Ht Ho. induction es as [|e es IH] using rev_ind; intros Hc; simpl.
  - repeat split; try assumption; rewrite Ht; reflexivity.
  - rewrite forallb_app in Hc. apply andb_true_iff in Hc.
    destruct Hc as [Hes Hcap]. simpl in Hcap. rewrite andb_true_r in Hcap.
    destruct (IH Hes) as [Hw' [Ho' Ht']].
    rewrite map_app, run_app. cbn [map run exec].
    change (@cam_read _ Pi_Camera) with PiCamera.read.
    unfold pi_captured in Hcap.
    destruct (PiCamera.r_capture_array e) as [a|] eqn:Hr; try discriminate.
    destruct (reverse_axis2 a) as [b|] eqn:Hb; try discriminate.
    rewrite (pi_read_captured e _ Ho' Hr Hb). cbn [fst snd].
    repeat split.
    + exact Hw'.
    + unfold PiCamera.is_open in *. exact Ho'.
    + simpl. rewrite Hw', Ht'.
      rewrite (window_push_lastn (n:=30)) by lia.
      rewrite lastn_app_lastn, map_app. reflexivity.
Qed.

(** C7 (counterexample).  Two runs of forty reads after [open()] whose
    last thirty clock readings are the same, but whose tenth readings
    differ (9 and 9.5).  The clock stands still during the last thirty
    reads, so the fortieth read finds a window of span 0 and keeps the rate
    of the thirty-ninth, whose window began at the tenth reading: the rates
    differ (29 and 58). *)
Lemma C7_evicted_timestamp_still_counts :
  length clock_a = 40%nat /\
  length clock_b = 40%nat /\
  lastn 30 clock_a = lastn 30 clock_b /\
  ~ (USBCamera.fps
       (fst (run (usb_reads_at clock_a)
               (snd (USBCamera.open usb_open_ok usb0))))
     == USBCamera.fps
          (fst (run (usb_reads_at clock_b)
                  (snd (USBCamera.open usb_open_ok usb0)))))%Q.
Proof.
  vm_compute. repeat split. intros H. discriminate H.
Qed.

Lemma usb_window_bound (o : op USBCamera.st) (s : USBCamera.st) :
  USBCamera._fps_window (fst s) = 30 ->
  (length (USBCamera._frame_times (fst s)) <= 30)%nat ->
  USBCamera._fps_window (fst (exec o s)) = 30 /\
  (length (USBCamera._frame_times (fst (exec o s))) <= 30)%nat.
Proof.
  intros Hw Hl. destruct o as [e|e|rel]; simpl.
  - destruct (USBFacts.usb_open_tracking e s) as [_ [Hwin [Ht Hf]]].
    split; [congruence|].
    destruct (USBFacts.usb_open_result e s) as [H|H].
    + destruct (Ht H) as [_ Hx]. rewrite Hx. simpl. lia.
    + destruct (Hf H) as [_ Hx]. rewrite Hx. exact Hl.
  - destruct (USBFacts.usb_read_state e s) as [H|[a [_ [_ H]]]]; rewrite H.
    + split; assumption.
    + simpl. split; [exact Hw|]. rewrite Hw.
      rewrite (window_push_lastn (n:=30)) by lia. apply lastn_length.
  - destruct (USBFacts.usb_close_facts rel s) as [_ [_ [_ [Ht [_ Hwin]]]]].
    split; congruence.
Qed.

Lemma pi_window_bound (o : op PiCamera.st) (s : PiCamera.st) :
  PiCamera._fps_window (fst s) = 30 ->
  (length (PiCamera._frame_times (fst s)) <= 30)%nat ->
  PiCamera._fps_window (fst (exec o s)) = 30 /\
  (length (PiCamera._frame_times (fst (exec o s))) <= 30)%nat.
Proof.
  intros Hw Hl. destruct o as [e|e|e]; simpl.
  - destruct (PiFacts.pi_open_tracking e s) as [_ [Hwin [Ht Hf]]].
    split; [congruence|].
    destruct (PiFacts.pi_open_result e s) as [H|H].
    + destruct (Ht H) as [_ [Hx _]]. rewrite Hx. simpl. lia.
    + destruct (Hf H) as [_ Hx]. rewrite Hx. exact Hl.
  - destruct (PiFacts.pi_read_facts e s) as [H|[a [b [f [_ [_ [_ [_ H]]]]]]]];
      rewrite H.
    + split; assumption.
    + simpl. split; [exact Hw|]. rewrite Hw.
      rewrite (window_push_lastn (n:=30)) by lia. apply lastn_length.
  - destruct (PiFacts.pi_close_facts e s) as [_ [_ [_ [Ht [_ Hwin]]]]].
    split; congruence.
Qed.

(** C7 (amended).  With the capacity of 30 set at construction, the window
    never holds more than 30 timestamps, whatever calls are made.  After an
    [open()] that returned true and any number of successive reads that
    captured an image, the window holds the last 30 of their timestamps in
    order (older ones were evicted first); and if it holds at least two
    timestamps and its newest is later than its oldest, the rate is
    (count - 1) / (newest - oldest) of that window, so that after forty
    reads only the last thirty timestamps determine it.  When the newest
    is not later than the oldest, the rate is the one stored before. *)
Theorem C7_window_capacity_and_rate :
  ((forall o s,
      USBCamera._fps_window (fst s) = 30 ->
      (length (USBCamera._frame_times (fst s)) <= 30)%nat ->
      USBCamera._fps_window (fst (exec o s)) = 30 /\
      (length (USBCamera._frame_times (fst (exec o s))) <= 30)%nat) /\
   (forall e0 s0 es,
      USBCamera._fps_window (fst s0) = 30 ->
      fst (USBCamera.open e0 s0) = Ret true ->
      forallb usb_captured es = true ->
      let s := run (map USB_Read es) (snd (USBCamera.open e0 s0)) in
      let w := lastn 30 (map USBCamera.r_time es) in
      USBCamera._frame_times (fst s) = w /\
      ((2 <= length w)%nat /\ (0 < span w)%Q ->
       USBCamera.fps (fst s)
       = (inject_Z (Z.of_nat (length w) - 1) / span w)%Q))) /\
  ((forall o s,
      PiCamera._fps_window (fst s) = 30 ->
      (length (PiCamera._frame_times (fst s)) <= 30)%nat ->
      PiCamera._fps_window (fst (exec o s)) = 30 /\
      (length (PiCamera._frame_times (fst (exec o s))) <= 30)%nat) /\
   (forall e0 s0 es,
      PiCamera._fps_window (fst s0) = 30 ->
      fst (PiCamera.open e0 s0) = Ret true ->
      forallb pi_captured es = true ->
      let s := run (map Pi_Read es) (snd (PiCamera.open e0 s0)) in
      let w := lastn 30 (map PiCamera.r_time es) in
      PiCamera._frame_times (fst s) = w /\
      ((2 <= length w)%nat /\ (0 < span w)%Q ->
       PiCamera.fps (fst s)
       = (inject_Z (Z.of_nat (length w) - 1) / span w)%Q))).
Proof.
  split; split.
  - exact usb_window_bound.
  - intros e0 s0 es Hw Hopen Hcap s w.
    destruct (USBFacts.usb_open_tracking e0 s0) as [_ [Hwin [Ht _]]].
    destruct (Ht Hopen) as [_ Htimes].
    assert (Ho : USBCamera.is_open (snd (USBCamera.open e0 s0)) = true).
    { pose proof (USBFacts.usb_open_is_open e0 s0) as H. rewrite Hopen in H.
      inversion H. reflexivity. }
    assert (Hw1 : USBCamera._fps_window (fst (snd (USBCamera.open e0 s0))) = 30)
      by congruence.
    destruct (@usb_reads_window es _ Hw1 Htimes Ho Hcap) as [_ [_ Hfin]].
    split; [exact Hfin|].
    intros [Hlen Hpos]. subst s.
    destruct es as [|e1 es1] using rev_ind; [simpl in Hlen; lia|]. clear IHes1.
    rewrite forallb_app in Hcap. apply andb_true_iff in Hcap.
    destruct Hcap as [Hes Hc]. simpl in Hc. rewrite andb_true_r in Hc.
    destruct (@usb_reads_window es1 _ Hw1 Htimes Ho Hes) as [Hw2 [Ho2 Ht2]].
    rewrite map_app, run_app in *. simpl in *.
    unfold usb_captured in Hc.
    destruct (USBCamera.r_isOpened e1) as [[]|] eqn:Hio; try discriminate.
    destruct (USBCamera.r_read e1) as [[[|] [a|]]|] eqn:Hr; try discriminate.
    rewrite (usb_read_captured e1 _ Ho2 Hio Hr) in *. cbn [fst snd] in *.
    unfold USBCamera.fps. simpl in *. rewrite Hfin.
    apply (proj1 (fps_update_spec w _)). split; assumption.
  - exact pi_window_bound.
  - intros e0 s0 es Hw Hopen Hcap s w.
    destruct (PiFacts.pi_open_tracking e0 s0) as [_ [Hwin [Ht _]]].
    destruct (Ht Hopen) as [_ [Htimes Ho]].
    assert (Hw1 : PiCamera._fps_window (fst (snd (PiCamera.open e0 s0))) = 30)
      by congruence.
    destruct (@pi_reads_window es _ Hw1 Htimes Ho Hcap) as [_ [_ Hfin]].
    split; [exact Hfin|].
    intros [Hlen Hpos]. subst s.
    destruct es as [|e1 es1] using rev_ind; [simpl in Hlen; lia|]. clear IHes1.
    rewrite forallb_app in Hcap. apply andb_true_iff in Hcap.
    destruct Hcap as [Hes Hc]. simpl in Hc. rewrite andb_true_r in Hc.
    destruct (@pi_reads_window es1 _ Hw1 Htimes Ho Hes) as [Hw2 [Ho2 Ht2]].
    rewrite map_app, run_app in *. simpl in *.
    unfold pi_captured in Hc.
    destruct (PiCamera.r_capture_array e1) as [a|] eqn:Hr; try discriminate.
    destruct (reverse_axis2 a) as [b|] eqn:Hb; try discriminate.
    rewrite (pi_read_captured e1 _ Ho2 Hr Hb) in *. cbn [fst snd] in *.
    unfold PiCamera.fps. simpl in *. rewrite Hfin.
    apply (proj1 (fps_update_spec w _)). split; assumption.
Qed.

Lemma C7_window_witness :
  USBCamera._frame_times
    (fst (run (map USB_Read (map usb_read_at clock_40))
            (snd (USBCamera.open usb_open_ok usb0))))
  = lastn 30 (map USBCamera.r_time (map usb_read_at clock_40)) /\
  USBCamera.fps
    (fst (run (map USB_Read (map usb_read_at clock_40))
            (snd (USBCamera.open usb_open_ok usb0))))
  = (inject_Z
       (Z.of_nat (length (lastn 30 (map USBCamera.r_time (map usb_read_at clock_40)))) - 1)
     / span (lastn 30 (map USBCamera.r_time (map usb_read_at clock_40))))%Q.
Proof.
  destruct (proj2 (proj1 C7_window_capacity_and_rate) usb_open_ok usb0
              (map usb_read_at clock_40)) as [Hw Hf].
  - reflexivity.
  - vm_compute. reflexivity.
  - reflexivity.
  - split; [exact Hw|]. apply Hf. split; [vm_compute; lia | vm_compute; reflexivity].
Defined.

(** ** C8: the factory and an unknown backend name *)

(** C8.  For every backend name other than ["picamera"], ["usb"] and
    ["auto"], [create_camera] raises a [ValueError] naming it, builds no
    camera and touches no driver (the probe is not run); [main()], which
    calls the factory once and outside any loop or handler, ends with that
    exception without a single call to a device. *)
Theorem C8_unknown_backend_raises :
  forall (camera_type : string) (width height fps device_id : Z)
         (focus_distance : Q) (retry_interval : Z) (p : probe_env) (w : world),
    camera_type <> "picamera"%string ->
    camera_type <> "usb"%string ->
    camera_type <> "auto"%string ->
    create_camera camera_type width height fps device_id focus_distance
      retry_interval p w
    = (Raise (ValueError ("Unknown camera type: " ++ camera_type)), w) /\
    forall script,
      main {| cfg_type := camera_type; cfg_width := width; cfg_height := height;
              cfg_fps := fps; cfg_device_id := device_id;
              cfg_focus_distance := focus_distance;
              cfg_retry_interval := retry_interval |} p script
      = ([], Uncaught (ValueError ("Unknown camera type: " ++ camera_type))).
Proof.
  intros camera_type width height fps device_id focus_distance retry_interval
         p w H1 H2 H3.
  apply String.eqb_neq in H1, H2, H3.
  unfold main, create_camera. simpl. rewrite H1, H2, H3.
  split; [reflexivity|]. intros script. reflexivity.
Qed.

Lemma C8_unknown_backend_witness :
  create_camera "invalid_type" 640 480 10 0 (3 # 2) 30 probe_no_picamera2 world0
  = (Raise (ValueError ("Unknown camera type: " ++ "invalid_type")), world0).
Proof.
  apply (C8_unknown_backend_raises 640 480 10 0 (3 # 2) 30
           probe_no_picamera2 world0 (camera_type := "invalid_type"));
    intros H; discriminate H.
Defined.

(** ** C9: a failed capture changes nothing *)

(** C9.  On both backends, when the capture of a [read()] fails or delivers
    no usable image -- USB: the capture call raises, reports failure or
    returns no image; integrated camera: the capture call raises or its
    array lacks the three axes of an image -- [read()] returns [None] and
    the device (sequence counter, window, rate, handle) and the driver side
    are exactly as before.  On the USB backend [read()] first asks
    [is_open()], outside its [try] statement; the device is open when that
    check answers.  Were the check itself to raise, [read()] would not
    return, and the state would be as before all the same. *)
Theorem C9_failed_capture_leaves_state :
  (forall e s, USBCamera.r_isOpened e = Ret tt ->
               usb_capture_failed e = true ->
               USBCamera.read e s = (Ret None, s)) /\
  (forall e s, pi_capture_failed e = true ->
               PiCamera.read e s = (Ret None, s)) /\
  (forall e s, usb_capture_failed e = true ->
               snd (USBCamera.read e s) = s).
Proof.
  assert (Husb : forall e s, usb_capture_failed e = true ->
            snd (USBCamera.read e s) = s /\
            (USBCamera.r_isOpened e = Ret tt ->
             USBCamera.read e s = (Ret None, s))).
  { intros e [c w] H. unfold usb_capture_failed in H.
    unfold USBCamera.read, USBCamera.is_open_call, USBCamera.isOpened,
      USBCamera.self_upd.
    unfold_py. simpl.
    destruct (USBCamera._cap c) as [h|]; simpl; [|split; reflexivity].
    destruct (USBCamera.r_isOpened e) as [[]|ex]; simpl;
      [|split; [reflexivity | discriminate]].
    destruct (is_live h w); simpl; [|split; reflexivity].
    destruct (USBCamera.r_read e) as [[[|] [a|]]|]; simpl in *;
      try (split; reflexivity); discriminate. }
  split; [|split]; [intros e s Hi H; exact (proj2 (Husb e s H) Hi) | |
                    intros e s H; exact (proj1 (Husb e s H))].
  intros e [c w] H.
  - unfold pi_capture_failed in H.
    unfold PiCamera.read, PiCamera.self_upd. unfold_py. simpl.
    destruct (PiCamera.is_open (c, w)); simpl; [|reflexivity].
    destruct (PiCamera.r_capture_array e) as [a|]; simpl; [|reflexivity].
    apply Nat.ltb_lt in H. unfold reverse_axis2.
    destruct (shape a) as [|h [|wd [|ch rest]]]; simpl in *;
      try reflexivity; lia.
Qed.

Lemma C9_failed_capture_witness :
  USBCamera.read usb_read_fails (snd (USBCamera.open usb_open_ok usb0))
  = (Ret None, snd (USBCamera.open usb_open_ok usb0)).
Proof.
  apply (proj1 C9_failed_capture_leaves_state); reflexivity.
Defined.

(** ** C10: the self-test read of the USB backend *)

(** C10.  After an [open()] of the USB backend that returned true, the
    sequence counter is 0 and the window is empty; the state reached does
    not depend on the image the self-test read delivered, and the rate is
    the one stored before the call.  A first [read()] that captures an
    image (its check of [is_open()] returns and the capture delivers an
    image) then returns a frame with sequence 1, leaves exactly its own
    timestamp in the window, and does not change the rate. *)
Theorem C10_self_test_not_counted :
  forall e s,
    USBCamera._fps_window (fst s) = 30 ->
    fst (USBCamera.open e s) = Ret true ->
    USBCamera._sequence (fst (snd (USBCamera.open e s))) = 0 /\
    USBCamera._frame_times (fst (snd (USBCamera.open e s))) = [] /\
    USBCamera.fps (fst (snd (USBCamera.open e s))) = USBCamera.fps (fst s) /\
    (forall a, USBCamera.open (with_test_image a e) s = USBCamera.open e s) /\
    (forall re a,
       USBCamera.r_isOpened re = Ret tt ->
       USBCamera.r_read re = Ret (true, Some a) ->
       (2 <= length (shape a))%nat ->
       exists f,
         fst (USBCamera.read re (snd (USBCamera.open e s))) = Ret (Some f) /\
         Frame.sequence f = 1 /\
         USBCamera._frame_times
           (fst (snd (USBCamera.read re (snd (USBCamera.open e s)))))
         = [USBCamera.r_time re] /\
         USBCamera.fps (fst (snd (USBCamera.read re (snd (USBCamera.open e s)))))
         = USBCamera.fps (fst s)).
Proof.
  intros e s Hw Hopen.
  destruct (USBFacts.usb_open_tracking e s) as [Hfps [Hwin [Ht _]]].
  destruct (Ht Hopen) as [Hseq Htimes].
  assert (Ho : USBCamera.is_open (snd (USBCamera.open e s)) = true).
  { pose proof (USBFacts.usb_open_is_open e s) as H. rewrite Hopen in H.
    inversion H. reflexivity. }
  split; [exact Hseq|]. split; [exact Htimes|]. split; [exact Hfps|]. split.
  - intros a. destruct s as [c w]. revert Hopen. clear.
    unfold USBCamera.open, USBCamera.VideoCapture, USBCamera.isOpened,
      USBCamera._cleanup, USBCamera.release, USBCamera.self_upd.
    unfold_py. cases; intros; try congruence; try reflexivity.
  - intros re a Hi Hr Hshape.
    pose proof (usb_read_captured re _ Ho Hi Hr) as Hs.
    destruct (USBFacts.usb_read_facts re (snd (USBCamera.open e s)))
      as [Hn|[(ex & _ & Hx & _)|(a' & Hr' & _ & _ & Hf & _)]].
    + exfalso. rewrite Hn in Hs. simpl in Hs.
      apply (f_equal (fun x => USBCamera._sequence (fst x))) in Hs.
      simpl in Hs. lia.
    + congruence.
    + rewrite Hr in Hr'. inversion Hr'; subst a'.
      pose proof (USBFacts.create_facts a
                    (USBCamera._sequence (fst (snd (USBCamera.open e s))) + 1)
                    None (USBCamera.r_now re)) as Hc.
      destruct (Frame.create a
                  (USBCamera._sequence (fst (snd (USBCamera.open e s))) + 1)
                  None (USBCamera.r_now re)) as [f|ex]; [|lia].
      exists f. split; [exact Hf|].
      destruct Hc as [_ [Hq _]]. split; [rewrite Hq, Hseq; reflexivity|].
      rewrite Hs. cbn [fst snd]. unfold USBCamera.fps. simpl.
      rewrite Htimes, Hwin, Hw, Hfps. split; reflexivity.
Qed.

Lemma C10_self_test_witness :
  USBCamera._sequence (fst (snd (USBCamera.open usb_open_ok usb0))) = 0 /\
  USBCamera._frame_times (fst (snd (USBCamera.open usb_open_ok usb0))) = [] /\
  exists f,
    fst (USBCamera.read (usb_read_at 5) (snd (USBCamera.open usb_open_ok usb0)))
    = Ret (Some f) /\
    Frame.sequence f = 1.
Proof.
  destruct (C10_self_test_not_counted usb_open_ok usb0) as [H1 [H2 [_ [_ H5]]]].
  - reflexivity.
  - vm_compute. reflexivity.
  - split; [exact H1|]. split; [exact H2|].
    destruct (H5 (usb_read_at 5) image_2x3) as [f [Hf [Hq _]]].
    + reflexivity.
    + reflexivity.
    + simpl. lia.
    + exists f. split; assumption.
Defined.

(** ** C4: cancellation of the supervisor *)

Lemma supervise_halt (ri : Z) (o : outcome) (running : bool) (script : list reply) :
  supervise ri (Halt o) running script = ([], o).
Proof.
  destruct script; reflexivity.
Qed.

(** Supporting fact: in the main loop and in the reconnect loop the flag is
    honoured.  When the signal arrives during a call made there, and no
    later call raises, [main()] makes no further [open()] or [read()]
    call, closes the device and returns 0. *)
Lemma supervise_cancelled (ri : Z) (p : pc) (r : reply) (rest : list reply) :
  in_main_loop p = true ->
  sig r = true ->
  existsb is_Throws (map ans (r :: rest)) = false ->
  (2 <= length rest)%nat ->
  exists ev evs,
    supervise ri p true (r :: rest) = (ev :: evs, Returned 0) /\
    existsb is_capture_call evs = false /\
    last evs EvOpen = EvClose.
Proof.
  intros Hp Hsig Hthrow Hlen.
  destruct rest as [|r1 [|r2 rest]]; simpl in Hlen; try lia.
  destruct r as [a sg]. simpl in Hsig. subst sg.
  destruct r1 as [a1 sg1]. destruct r2 as [a2 sg2].
  simpl in Hthrow.
  destruct a; simpl in Hthrow; try discriminate;
    destruct a1; simpl in Hthrow; try discriminate;
      destruct a2; simpl in Hthrow; try discriminate;
        destruct p; simpl in Hp; try discriminate;
          simpl; rewrite ?supervise_halt;
          eexists; eexists; repeat split; reflexivity.
Qed.

(** C4 (the code departs from the claim).  The first open-retry loop
    ([while not camera.open()], lines 123-129) does not look at any flag:
    the flag and the signal handlers are set up at lines 139-148, after that
    loop.  With no camera connected at start-up and a signal delivered
    during the first [time.sleep(retry_interval)], [main()] does not return
    0 and does not call [close()]: it is ended by the default disposition
    of the signal. *)
Theorem C4_signal_in_first_retry_loop :
  main CameraConfig_default probe_no_picamera2 script_signal_at_startup
  = ([EvOpen; EvSleep 30], Killed).
Proof.
  vm_compute. reflexivity.
Qed.

(** * Further properties of the code *)

(** ** The device operations *)

(** X1.  [close()] never raises, leaves the device closed and the counter,
    the window and the rate as they were; a second [close()] changes
    nothing at all. *)
Theorem X1_close_idempotent :
  (forall (r1 r2 : call unit) (s : USBCamera.st),
     fst (USBCamera.close r1 s) = Ret tt /\
     USBCamera.is_open (snd (USBCamera.close r1 s)) = false /\
     USBCamera._sequence (fst (snd (USBCamera.close r1 s)))
     = USBCamera._sequence (fst s) /\
     USBCamera._frame_times (fst (snd (USBCamera.close r1 s)))
     = USBCamera._frame_times (fst s) /\
     USBCamera.fps (fst (snd (USBCamera.close r1 s))) = USBCamera.fps (fst s) /\
     USBCamera.close r2 (snd (USBCamera.close r1 s))
     = (Ret tt, snd (USBCamera.close r1 s))) /\
  (forall (e1 e2 : PiCamera.cleanup_env) (s : PiCamera.st),
     fst (PiCamera.close e1 s) = Ret tt /\
     PiCamera.is_open (snd (PiCamera.close e1 s)) = false /\
     PiCamera._sequence (fst (snd (PiCamera.close e1 s)))
     = PiCamera._sequence (fst s) /\
     PiCamera._frame_times (fst (snd (PiCamera.close e1 s)))
     = PiCamera._frame_times (fst s) /\
     PiCamera.fps (fst (snd (PiCamera.close e1 s))) = PiCamera.fps (fst s) /\
     PiCamera.close e2 (snd (PiCamera.close e1 s))
     = (Ret tt, snd (PiCamera.close e1 s))).
Proof.
  split.
  - intros r1 r2 s.
    destruct (USBFacts.usb_close_facts r1 s) as [H1 [H2 [H3 [H4 [H5 _]]]]].
    repeat split; try assumption.
    destruct (USBFacts.usb_cleanup_facts r1 s) as [_ [Hc _]].
    unfold USBCamera.close in *.
    destruct (USBCamera._cleanup r1 s) as [r [c w]]. simpl in *.
    unfold USBCamera._cleanup. unfold_py. simpl. rewrite Hc. reflexivity.
  - intros e1 e2 s.
    destruct (PiFacts.pi_close_facts e1 s) as [H1 [H2 [H3 [H4 [H5 _]]]]].
    repeat split; try assumption.
    unfold PiCamera.close, PiCamera.is_open in *.
    destruct (PiCamera._cleanup e1 s) as [r [c w]]. simpl in *.
    unfold PiCamera._cleanup. unfold_py. simpl.
    destruct (PiCamera._picam c); [discriminate | reflexivity].
Qed.

(** X2.  [read()] of the integrated backend never raises.  [read()] of the
    USB backend asks [is_open()] before its [try] statement: it raises
    exactly when the device has a capture object and the [cap.isOpened()]
    of that check raises, it then raises that exception, and the state is
    as before.  Everything the driver or [Frame.create] raises after the
    check is caught.  On a device that is not open [read()] returns [None]
    and changes nothing; without a capture object the driver is not even
    asked. *)
Theorem X2_read_raises_only_from_check :
  (forall e s ex,
     fst (USBCamera.read e s) = Raise ex <->
     USBCamera._cap (fst s) <> None /\ USBCamera.r_isOpened e = Raise ex) /\
  (forall e s ex,
     fst (USBCamera.read e s) = Raise ex -> snd (USBCamera.read e s) = s) /\
  (forall e s, exists o, fst (PiCamera.read e s) = Ret o) /\
  (forall e s, USBCamera._cap (fst s) = None ->
               USBCamera.read e s = (Ret None, s)) /\
  (forall e s, USBCamera.r_isOpened e = Ret tt ->
               USBCamera.is_open s = false ->
               USBCamera.read e s = (Ret None, s)) /\
  (forall e s, PiCamera.is_open s = false ->
               PiCamera.read e s = (Ret None, s)).
Proof.
  split; [|split; [|split; [|split; [|split]]]].
  - intros e [c w] ex.
    unfold USBCamera.read, USBCamera.is_open_call, USBCamera.isOpened,
      USBCamera.self_upd.
    unfold_py. simpl.
    destruct (USBCamera._cap c) as [h|]; simpl.
    2:{ split; [discriminate | intros [H _]; congruence]. }
    destruct (USBCamera.r_isOpened e) as [[]|ex']; simpl.
    2:{ split; [intros H; split; congruence | intros [_ H]; congruence]. }
    destruct (is_live h w); simpl.
    2:{ split; [discriminate | intros [_ H]; discriminate]. }
    destruct (USBCamera.r_read e) as [[[|] [a|]]|]; simpl;
      try destruct (Frame.create a (USBCamera._sequence c + 1) None
                      (USBCamera.r_now e));
      simpl; (split; [discriminate | intros [_ H]; discriminate]).
  - intros e s ex H.
    destruct (USBFacts.usb_read_state e s) as [Hs|(a & _ & _ & _)];
      [exact Hs|].
    destruct (USBFacts.usb_read_facts e s)
      as [Hn|[(ex' & _ & _ & Hn)|(a' & _ & _ & _ & Hf & _)]].
    + rewrite Hn. reflexivity.
    + rewrite Hn. reflexivity.
    + rewrite Hf in H.
      destruct (Frame.create a' (USBCamera._sequence (fst s) + 1) None
                  (USBCamera.r_now e)); discriminate.
  - intros e s.
    destruct (PiFacts.pi_read_facts e s) as [H|[a [b [f [_ [_ [_ [_ H]]]]]]]];
      rewrite H; eexists; reflexivity.
  - intros e [c w] H. unfold USBCamera.read, USBCamera.is_open_call.
    unfold_py. simpl in *. rewrite H. reflexivity.
  - intros e [c w] Hi H.
    unfold USBCamera.read, USBCamera.is_open_call, USBCamera.isOpened,
      USBCamera.is_open in *.
    unfold_py. simpl in *.
    destruct (USBCamera._cap c) as [h|]; [|reflexivity].
    rewrite Hi. simpl. rewrite H. reflexivity.
  - intros e [c w] H. unfold PiCamera.read. unfold_py. simpl.
    rewrite H. reflexivity.
Qed.

Lemma X2_read_closed_witness :
  USBCamera.read (usb_read_at 0) usb0 = (Ret None, usb0) /\
  fst (USBCamera.read usb_read_check_raises
         (snd (USBCamera.open usb_open_ok usb0)))
  = Raise OtherError.
Proof.
  split.
  - apply (proj1 (proj2 (proj2 (proj2 X2_read_raises_only_from_check)))).
    reflexivity.
  - apply (proj1 X2_read_raises_only_from_check).
    split; [vm_compute; discriminate | reflexivity].
Defined.

Lemma usb_exec_config (o : op USBCamera.st) (s : USBCamera.st) :
  usb_config (fst (exec o s)) = usb_config (fst s).
Proof.
  destruct s as [c w]. destruct o as [e|e|rel]; simpl.
  - unfold usb_config.
    unfold USBCamera.open, USBCamera.VideoCapture, USBCamera.isOpened,
      USBCamera._cleanup, USBCamera.release, USBCamera.self_upd.
    unfold_py. cases; reflexivity.
  - destruct (USBFacts.usb_read_state e (c, w)) as [H|[a [_ [_ H]]]];
      rewrite H; reflexivity.
  - destruct (USBFacts.usb_cleanup_facts rel (c, w)) as [_ [_ [H _]]].
    unfold USBCamera.close.
    apply (f_equal usb_config) in H. exact H.
Qed.

Lemma pi_exec_config (o : op PiCamera.st) (s : PiCamera.st) :
  pi_config (fst (exec o s)) = pi_config (fst s).
Proof.
  destruct s as [c w]. destruct o as [e|e|e]; simpl.
  - unfold pi_config.
    unfold PiCamera.open, PiCamera.Picamera2, PiCamera._cleanup,
      PiCamera.picam_close, PiCamera.self_upd.
    unfold_py. cases; reflexivity.
  - destruct (PiFacts.pi_read_facts e (c, w)) as [H|[a [b [f [_ [_ [_ [_ H]]]]]]]];
      rewrite H; reflexivity.
  - unfold pi_config.
    unfold PiCamera.close, PiCamera._cleanup, PiCamera.picam_close,
      PiCamera.self_upd.
    unfold_py. cases; reflexivity.
Qed.

(** X3.  What the constructor was given is never changed by any sequence
    of [open()], [read()] and [close()] calls: device index, requested
    width and height, target rate, retry interval, focus distance and the
    window capacity stay as constructed.  So [target_fps] always answers
    the configured rate, and the integrated camera always reports the
    requested resolution. *)
Theorem X3_configuration_is_constant :
  (forall (ops : list (op USBCamera.st)) (s : USBCamera.st),
     usb_config (fst (run ops s)) = usb_config (fst s) /\
     USBCamera.target_fps (fst (run ops s)) = USBCamera.target_fps (fst s)) /\
  (forall (ops : list (op PiCamera.st)) (s : PiCamera.st),
     pi_config (fst (run ops s)) = pi_config (fst s) /\
     PiCamera.target_fps (fst (run ops s)) = PiCamera.target_fps (fst s) /\
     PiCamera.resolution (fst (run ops s))
     = (PiCamera._width (fst s), PiCamera._height (fst s))).
Proof.
  split.
  - assert (H : forall ops s, usb_config (fst (run ops s)) = usb_config (fst s)).
    { induction ops as [|o ops IH]; intros s; simpl; [reflexivity|].
      rewrite IH. apply usb_exec_config. }
    intros ops s. split; [apply H|].
    specialize (H ops s). unfold usb_config in H. inversion H.
    unfold USBCamera.target_fps. assumption.
  - assert (H : forall ops s, pi_config (fst (run ops s)) = pi_config (fst s)).
    { induction ops as [|o ops IH]; intros s; simpl; [reflexivity|].
      rewrite IH. apply pi_exec_config. }
    intros ops s. split; [apply H|].
    specialize (H ops s). unfold pi_config in H. inversion H.
    unfold PiCamera.target_fps, PiCamera.resolution.
    split; [assumption | f_equal; assumption].
Qed.

(** X4.  The USB backend reports the requested resolution until it is
    opened; after an [open()] that returned true it reports the width and
    height the driver answered to the two queries, truncated to integers,
    whatever was requested. *)
Theorem X4_usb_resolution_is_granted :
  (forall d w h f r,
     USBCamera.resolution (USBCamera.init d w h f r) = (w, h)) /\
  (forall e s aw ah,
     USBCamera.o_get_width e = Ret aw ->
     USBCamera.o_get_height e = Ret ah ->
     fst (USBCamera.open e s) = Ret true ->
     USBCamera.resolution (fst (snd (USBCamera.open e s)))
     = (int_of_float aw, int_of_float ah)).
Proof.
  split; [reflexivity|].
  intros e [c w] aw ah Hw Hh.
  unfold USBCamera.resolution.
  unfold USBCamera.open, USBCamera.VideoCapture, USBCamera.isOpened,
    USBCamera._cleanup, USBCamera.release, USBCamera.self_upd.
  unfold_py. rewrite Hw, Hh. cases; intros; try congruence; reflexivity.
Qed.

Lemma X4_usb_resolution_witness :
  USBCamera.resolution (fst (snd (USBCamera.open usb_open_ok usb0)))
  = (int_of_float (640 # 1), int_of_float (480 # 1)).
Proof.
  apply (proj2 X4_usb_resolution_is_granted); reflexivity.
Defined.

(** X5.  [is_open()] follows the last call: on the USB backend it equals
    what [open()] just returned; on the integrated camera it is true after
    an [open()] that returned true; on both, [read()] never changes it and
    [close()] makes it false. *)
Theorem X5_is_open_follows_calls :
  (forall e s b, fst (USBCamera.open e s) = Ret b ->
                 USBCamera.is_open (snd (USBCamera.open e s)) = b) /\
  (forall e s, fst (PiCamera.open e s) = Ret true ->
               PiCamera.is_open (snd (PiCamera.open e s)) = true) /\
  (forall e s, USBCamera.is_open (snd (USBCamera.read e s))
               = USBCamera.is_open s) /\
  (forall e s, PiCamera.is_open (snd (PiCamera.read e s))
               = PiCamera.is_open s) /\
  (forall r s, USBCamera.is_open (snd (USBCamera.close r s)) = false) /\
  (forall e s, PiCamera.is_open (snd (PiCamera.close e s)) = false).
Proof.
  repeat split.
  - intros e s b H. pose proof (USBFacts.usb_open_is_open e s) as Ho.
    rewrite H in Ho. inversion Ho. reflexivity.
  - intros e s H. apply (PiFacts.pi_open_tracking e s). exact H.
  - intros e s.
    destruct (USBFacts.usb_read_state e s) as [H|[a [_ [_ H]]]];
      rewrite H; reflexivity.
  - intros e s.
    destruct (PiFacts.pi_read_facts e s) as [H|[a [b [f [_ [_ [_ [_ H]]]]]]]];
      rewrite H; reflexivity.
  - intros r s. apply (USBFacts.usb_close_facts r s).
  - intros e s. apply (PiFacts.pi_close_facts e s).
Qed.

Lemma X5_is_open_witness :
  USBCamera.is_open (snd (USBCamera.open usb_open_absent usb0)) = false.
Proof.
  apply (proj1 X5_is_open_follows_calls). vm_compute. reflexivity.
Defined.

(** ** The factory *)

(** The factory on a recognised name. *)
Lemma create_camera_recognised :
  forall camera_type width height fps device_id focus_distance retry_interval
         p w,
    recognised camera_type = true ->
    exists cam w',
      create_camera camera_type width height fps device_id focus_distance
        retry_interval p w = (Ret cam, w') /\
      obj_is_open cam w' = false /\
      obj_resolution cam = (width, height) /\
      obj_target_fps cam = fps /\
      (obj_fps cam == 0)%Q /\
      (camera_type = "picamera"%string -> w' = w /\ is_pi cam = true) /\
      (camera_type = "usb"%string -> w' = w /\ is_pi cam = false).
Proof.
  intros camera_type width height fps device_id focus_distance retry_interval
         p w Hrec.
  unfold recognised in Hrec. unfold create_camera.
  destruct (camera_type =? "picamera")%string eqn:E1.
  { apply String.eqb_eq in E1. subst.
    eexists; eexists; repeat split; intros; try reflexivity; discriminate. }
  destruct (camera_type =? "usb")%string eqn:E2.
  { apply String.eqb_eq in E2. subst.
    eexists; eexists; repeat split; intros; try reflexivity; discriminate. }
  destruct (camera_type =? "auto")%string eqn:E3; [|discriminate].
  apply String.eqb_eq in E3. subst. unfold_py.
  destruct (p_import_picamera2 p); simpl;
    [destruct (p_Picamera2 p); simpl; [destruct (p_close p); simpl|]|];
    eexists; eexists; repeat split; intros; try reflexivity; discriminate.
Qed.


(** X6.  For each of the three recognised names the factory never raises
    and opens nothing: whatever the probe answers, the camera it returns
    is not open, reports the requested resolution and target rate, and a
    measured rate of 0.  For the two explicit names the driver side is not
    touched, and the backend is the one named. *)
Theorem X6_factory_builds_closed_camera :
  forall camera_type width height fps device_id focus_distance retry_interval
         p w,
    recognised camera_type = true ->
    exists cam w',
      create_camera camera_type width height fps device_id focus_distance
        retry_interval p w = (Ret cam, w') /\
      obj_is_open cam w' = false /\
      obj_resolution cam = (width, height) /\
      obj_target_fps cam = fps /\
      (obj_fps cam == 0)%Q /\
      (camera_type = "picamera"%string -> w' = w /\ is_pi cam = true) /\
      (camera_type = "usb"%string -> w' = w /\ is_pi cam = false).
Proof.
  exact create_camera_recognised.
Qed.

Lemma X6_factory_witness :
  exists cam w',
    create_camera "usb" 1280 720 30 2 (3 # 2) 30 probe_no_picamera2 world0
    = (Ret cam, w') /\
    obj_is_open cam w' = false /\
    obj_resolution cam = (1280, 720).
Proof.
  destruct (@X6_factory_builds_closed_camera "usb" 1280 720 30 2 (3 # 2) 30
              probe_no_picamera2 world0)
    as [cam [w' [H1 [H2 [H3 _]]]]].
  - reflexivity.
  - exists cam, w'. repeat split; assumption.
Defined.

Lemma is_live_forget_other (h n : handle) (w : world) :
  h <> n -> is_live h (forget n w) = is_live h w.
Proof.
  intros Hne. unfold is_live, forget. simpl.
  induction (live w) as [|a l IH]; simpl; [reflexivity|].
  destruct (Nat.eqb n a) eqn:E; simpl.
  - apply Nat.eqb_eq in E. subst a.
    destruct (Nat.eqb h n) eqn:E2; [apply Nat.eqb_eq in E2; contradiction|].
    simpl. exact IH.
  - rewrite IH. reflexivity.
Qed.

(** X7.  With the name ["auto"] the factory never raises.  It chooses the
    integrated camera exactly when the three calls of the probe (the
    import, the constructor and [close()]) all return, and the USB camera
    as soon as one of them raises.  When the import or the constructor
    raises, the driver side is untouched; otherwise the camera object the
    probe built is not left live, and no other handle is affected. *)
Theorem X7_auto_detection :
  forall width height fps device_id focus_distance retry_interval p w,
    exists cam w',
      create_camera "auto" width height fps device_id focus_distance
        retry_interval p w = (Ret cam, w') /\
      is_pi cam
      = returns (p_import_picamera2 p) && returns (p_Picamera2 p)
        && returns (p_close p) /\
      (returns (p_import_picamera2 p) && returns (p_Picamera2 p) = false ->
       w' = w) /\
      (returns (p_import_picamera2 p) && returns (p_Picamera2 p) = true ->
       is_live (next_handle w) w' = false /\
       forall h, h <> next_handle w -> is_live h w' = is_live h w).
Proof.
  intros width height fps device_id focus_distance retry_interval p w.
  unfold create_camera. simpl. unfold_py.
  assert (Hp : forall w0 : world,
             is_live (next_handle w)
               (forget (next_handle w) w0) = false /\
             forall h, h <> next_handle w ->
                       is_live h (forget (next_handle w)
                                    {| live := next_handle w :: live w;
                                       next_handle := S (next_handle w) |})
                       = is_live h w).
  { intros w0. split; [apply is_live_forget|].
    intros h Hne. rewrite is_live_forget_other by exact Hne.
    unfold is_live. simpl.
    destruct (Nat.eqb h (next_handle w)) eqn:E;
      [apply Nat.eqb_eq in E; contradiction | reflexivity]. }
  destruct (p_import_picamera2 p) as [[]|ex1]; simpl;
    [destruct (p_Picamera2 p) as [[]|ex2]; simpl;
     [destruct (p_close p) as [[]|ex3]; simpl|]|];
    eexists; eexists; (split; [reflexivity|]);
    (split; [reflexivity|]); split; intros H; try discriminate H;
    try reflexivity;
    (split; [apply (proj1 (Hp _)) | apply (proj2 (Hp w))]).
Qed.

Lemma X7_auto_detection_witness :
  exists cam w',
    create_camera "auto" 640 480 10 0 (3 # 2) 30 probe_no_picamera2 world0
    = (Ret cam, w') /\ is_pi cam = false /\ w' = world0.
Proof.
  destruct (X7_auto_detection 640 480 10 0 (3 # 2) 30 probe_no_picamera2 world0)
    as [cam [w' [H1 [H2 [H3 _]]]]].
  exists cam, w'. split; [exact H1|]. split; [exact H2|].
  apply H3. reflexivity.
Defined.

(** ** The supervisor *)

Lemma existsb_cons_false {A} (f : A -> bool) (x : A) (l : list A) :
  existsb f (x :: l) = false -> f x = false /\ existsb f l = false.
Proof.
  simpl. intros H. apply orb_false_iff in H. exact H.
Qed.

(** Without a signal and without an exception the supervisor goes on for
    as long as the script lasts, one call per reply. *)
Lemma supervise_goes_on (ri : Z) (script : list reply) :
  has_signal script = false ->
  has_throw script = false ->
  forall p,
    (forall o, p <> Halt o) -> (forall c, p <> FinalClose c) ->
    snd (supervise ri p true script) = ScriptEnded /\
    length (fst (supervise ri p true script)) = length script.
Proof.
  unfold has_signal, has_throw.
  induction script as [|r script IH]; intros Hs Ht p Hh Hf.
  - destruct p; simpl; try (split; reflexivity). exfalso. eapply Hh; reflexivity.
  - apply existsb_cons_false in Hs. destruct Hs as [Hs Hs'].
    apply existsb_cons_false in Ht. destruct Ht as [Ht Ht'].
    destruct r as [a sg]. simpl in Hs, Ht. subst sg.
    assert (Hgen : forall ev p', (forall o, p' <> Halt o) ->
                               (forall c, p' <> FinalClose c) ->
              snd (let (evs, o) := supervise ri p' true script in
                   (ev :: evs, o)) = ScriptEnded /\
              length (fst (let (evs, o) := supervise ri p' true script in
                           (ev :: evs, o))) = S (length script)).
    { intros ev p' H1 H2. destruct (IH Hs' Ht' p' H1 H2) as [Ho Hl].
      destruct (supervise ri p' true script) as [evs o]. simpl in *.
      split; [exact Ho | rewrite Hl; reflexivity]. }
    destruct p; try (exfalso; eapply Hh; reflexivity);
      try (exfalso; eapply Hf; reflexivity);
      destruct a; simpl in Ht; try discriminate; simpl;
      apply Hgen; intros; discriminate.
Qed.

(** X8.  The supervisor sets no limit on its attempts: in a run of
    [main()] in which no signal arrives and no call raises, [main()] does
    not return, however many calls fail -- it has made exactly one call per
    reply when the replies are used up. *)
Theorem X8_supervisor_never_gives_up :
  forall cfg p script,
    recognised (cfg_type cfg) = true ->
    has_signal script = false ->
    has_throw script = false ->
    snd (main cfg p script) = ScriptEnded /\
    length (fst (main cfg p script)) = length script.
Proof.
  intros cfg p script Hrec Hs Ht. unfold main.
  destruct (@create_camera_recognised (cfg_type cfg) (cfg_width cfg)
              (cfg_height cfg) (cfg_fps cfg) (cfg_device_id cfg)
              (cfg_focus_distance cfg) (cfg_retry_interval cfg) p world0 Hrec)
    as [cam [w' [H _]]].
  rewrite H.
  apply supervise_goes_on; try assumption; intros; discriminate.
Qed.

Lemma X8_supervisor_witness :
  snd (main CameraConfig_default probe_no_picamera2
         [quiet No; quiet No; quiet No; quiet No; quiet Yes; quiet No])
  = ScriptEnded.
Proof.
  apply (@X8_supervisor_never_gives_up CameraConfig_default probe_no_picamera2
           [quiet No; quiet No; quiet No; quiet No; quiet Yes; quiet No]);
    reflexivity.
Defined.

Lemma supervise_failed_opens (ri : Z) (n : nat) (rest : list reply) :
  supervise ri InitOpen true (failed_opens n ++ quiet Yes :: rest)
  = (retry_events ri n ++ EvOpen :: fst (supervise ri RunRead true rest),
     snd (supervise ri RunRead true rest)).
Proof.
  induction n as [|n IH]; simpl.
  - destruct (supervise ri RunRead true rest). reflexivity.
  - rewrite IH. reflexivity.
Qed.

(** X9.  When [open()] fails [n] times at start-up and then succeeds,
    [main()] calls [open()] exactly [n + 1] times, with one
    [time.sleep(retry_interval)] of the configured interval after each
    failure and nothing else in between, and goes on with the first
    [read()]. *)
Theorem X9_start_up_retries :
  forall cfg p n rest,
    recognised (cfg_type cfg) = true ->
    main cfg p (failed_opens n ++ quiet Yes :: rest)
    = (retry_events (cfg_retry_interval cfg) n
       ++ EvOpen :: fst (supervise (cfg_retry_interval cfg) RunRead true rest),
       snd (supervise (cfg_retry_interval cfg) RunRead true rest)) /\
    length (filter is_capture_call
              (retry_events (cfg_retry_interval cfg) n ++ [EvOpen]))
    = S n.
Proof.
  intros cfg p n rest Hrec. unfold main.
  destruct (@create_camera_recognised (cfg_type cfg) (cfg_width cfg)
              (cfg_height cfg) (cfg_fps cfg) (cfg_device_id cfg)
              (cfg_focus_distance cfg) (cfg_retry_interval cfg) p world0 Hrec)
    as [cam [w' [H _]]].
  rewrite H. split; [apply supervise_failed_opens|].
  induction n as [|n IH]; simpl; [reflexivity | rewrite IH; reflexivity].
Qed.

Lemma X9_start_up_witness :
  fst (main CameraConfig_default probe_no_picamera2
         (failed_opens 3 ++ quiet Yes :: [quiet Yes]))
  = [EvOpen; EvSleep 30; EvOpen; EvSleep 30; EvOpen; EvSleep 30; EvOpen; EvRead].
Proof.
  rewrite (proj1 (@X9_start_up_retries CameraConfig_default probe_no_picamera2
                    3 [quiet Yes] eq_refl)).
  reflexivity.
Defined.

Lemma last_cons_close (ev : event) (evs : list event) :
  last evs EvOpen = EvClose -> last (ev :: evs) EvOpen = EvClose.
Proof.
  destruct evs as [|e evs]; simpl; [discriminate | auto].
Qed.

(** How [main()] can return, from any control point. *)
Lemma supervise_returned (ri : Z) (script : list reply) :
  forall p running evs code,
    (forall o, p <> Halt o) ->
    supervise ri p running script = (evs, Returned code) ->
    last evs EvOpen = EvClose /\
    match p with
    | FinalClose c => code = c
    | _ =>
        (code = 0 /\ (running = false \/ has_signal script = true)) \/
        (code = 1 /\ has_throw script = true)
    end.
Proof.
  unfold has_signal, has_throw.
  induction script as [|r script IH]; intros p running evs code Hh H.
  - destruct p; simpl in H; try discriminate. exfalso. eapply Hh; reflexivity.
  - destruct r as [a sg].
    destruct p; try (exfalso; eapply Hh; reflexivity);
      destruct a; destruct sg; destruct running;
      cbn [supervise step ans sig loop_top reconnect_top andb negb] in H;
      rewrite ?supervise_halt in H;
      try (inversion H; subst; split; reflexivity);
      try discriminate H;
      match type of H with
      | (let (_, _) := supervise ri ?p' ?r' script in _) = _ =>
          destruct (supervise ri p' r' script) as [evs0 o0] eqn:E;
          inversion H; subst; clear H;
          apply IH in E; [|intros; discriminate];
          destruct E as [Hl Hc];
          (split; [apply last_cons_close; exact Hl|]);
          cbn [existsb ans sig is_Throws orb] in *;
          try tauto
      end.
Qed.

(** X10.  [main()] returns only through its [finally] clause: whenever it
    returns, its last call was [close()].  It returns 0 only if a signal
    arrived, and 1 only if a call raised; nothing else is ever returned. *)
Theorem X10_exit_status :
  forall cfg p script evs code,
    main cfg p script = (evs, Returned code) ->
    last evs EvOpen = EvClose /\
    ((code = 0 /\ has_signal script = true) \/
     (code = 1 /\ has_throw script = true)).
Proof.
  intros cfg p script evs code H. unfold main in H.
  destruct (create_camera (cfg_type cfg) (cfg_width cfg) (cfg_height cfg)
              (cfg_fps cfg) (cfg_device_id cfg) (cfg_focus_distance cfg)
              (cfg_retry_interval cfg) p world0) as [[cam|ex] w'];
    [|discriminate].
  apply supervise_returned in H; [|intros; discriminate].
  destruct H as [Hl [[Hc [Hr|Hs]]|Ht]]; split; auto; discriminate.
Qed.

Lemma X10_exit_status_witness :
  last (fst (main CameraConfig_default probe_no_picamera2
               [quiet Yes; quiet Yes; signalled Yes; quiet No])) EvOpen
  = EvClose.
Proof.
  apply (@X10_exit_status CameraConfig_default probe_no_picamera2
           [quiet Yes; quiet Yes; signalled Yes; quiet No] _ 0).
  vm_compute. reflexivity.
Defined.

(** The calls of the supervisor fit the state of the device, from any
    control point. *)
Lemma supervise_obeys (ri : Z) (script : list reply) :
  forall p running d,
    fits p d = true ->
    obeys d (fst (supervise ri p running script)) script = true.
Proof.
  induction script as [|r script IH]; intros p running d Hfit.
  - destruct p; reflexivity.
  - destruct r as [a sg].
    destruct p; destruct d; try discriminate Hfit; try reflexivity;
      destruct a; destruct sg; destruct running;
      cbn [supervise step ans sig loop_top reconnect_top andb negb];
      rewrite ?supervise_halt; try reflexivity;
      match goal with
      | |- context [supervise ri ?p' ?r' script] =>
          match goal with
          | |- obeys ?d0 _ _ = true =>
              destruct (supervise ri p' r' script) as [evs0 o0] eqn:E;
              cbn [fst obeys protocol_step ans];
              replace evs0 with (fst (supervise ri p' r' script))
                by (rewrite E; reflexivity);
              apply IH; reflexivity
          end
      end.
Qed.

(** X11.  The supervisor respects the calling protocol of a device, in
    every run: it never calls [open()] after an [open()] that returned
    true without a [close()] in between, and it calls [read()] only when
    the last [open()] returned true and no [close()] followed.  In
    particular every reconnecting [open()] comes after a [close()]. *)
Theorem X11_supervisor_obeys_protocol :
  forall cfg p script,
    obeys DevClosed (fst (main cfg p script)) script = true.
Proof.
  intros cfg p script. unfold main.
  destruct (create_camera (cfg_type cfg) (cfg_width cfg) (cfg_height cfg)
              (cfg_fps cfg) (cfg_device_id cfg) (cfg_focus_distance cfg)
              (cfg_retry_interval cfg) p world0) as [[cam|ex] w'].
  - apply supervise_obeys. reflexivity.
  - destruct script; reflexivity.
Qed.

(** ** The configuration loader *)

Module SettingsFacts.
Import Settings.

(** X12.  [Settings.load] gives exactly the defaults when the file does
    not exist, when the document is empty or otherwise false (null, an
    empty mapping, 0, an empty string), and when the document is a mapping
    in which each of the three sections is absent or an empty mapping. *)
Theorem X12_load_defaults :
  load Absent = inr defaults /\
  (forall doc, truthy doc = false -> load (Content doc) = inr defaults) /\
  (forall m,
     dict_get "camera" m = YMap [] ->
     dict_get "storage" m = YMap [] ->
     dict_get "logging" m = YMap [] ->
     load (Content (YMap m)) = inr defaults).
Proof.
  split; [reflexivity|]. split.
  - intros doc H. unfold load. rewrite H. reflexivity.
  - intros m Hc Hs Hl. unfold load.
    destruct (truthy (YMap m)); [|reflexivity].
    rewrite Hc, Hs, Hl. reflexivity.
Qed.

Lemma X12_load_defaults_witness :
  load (Content (YMap [(YStr "other", YInt 1)])) = inr defaults.
Proof.
  apply (proj2 (proj2 X12_load_defaults)); reflexivity.
Defined.

Lemma known_rejects (names : list string) (kw : list (string * yaml))
      (k : string) (v : yaml) :
  In (k, v) kw -> existsb (String.eqb k) names = false ->
  known names kw = false.
Proof.
  unfold known. induction kw as [|[k' v'] kw IH]; simpl; [contradiction|].
  intros [H|H] Hk.
  - inversion H; subst. rewrite Hk. reflexivity.
  - rewrite (IH H Hk). apply andb_false_r.
Qed.

Lemma keywords_in (m : list (yaml * yaml)) (kw : list (string * yaml))
      (k : string) (v : yaml) :
  keywords m = Some kw -> In (YStr k, v) m -> In (k, v) kw.
Proof.
  revert kw. induction m as [|[key val] m IH]; intros kw Hk Hin;
    [contradiction|].
  simpl in Hk. destruct key; try discriminate.
  destruct (keywords m) as [kw'|] eqn:E; [|discriminate].
  inversion Hk; subst. destruct Hin as [H|H].
  - inversion H; subst. left. reflexivity.
  - right. apply IH; [reflexivity | exact H].
Qed.

Lemma construct_rejects {A} (names : list string)
      (make : list (string * yaml) -> A) (sm : list (yaml * yaml))
      (k : string) (v : yaml) :
  In (YStr k, v) sm -> existsb (String.eqb k) names = false ->
  construct names make (YMap sm) = inl TypeError.
Proof.
  intros Hin Hk. unfold construct.
  destruct (keywords sm) as [kw|] eqn:E; [|reflexivity].
  rewrite (@known_rejects names kw k v (@keywords_in sm kw k v E Hin) Hk).
  reflexivity.
Qed.

(** X13.  A key that is not a field of its section makes [Settings.load]
    raise a [TypeError]: the camera section accepts only its seven keys
    (type, width, height, fps, device_id, focus_distance, retry_interval),
    whatever else the document holds.  A section that is present but is no
    mapping (for instance an empty [camera:] entry, which is null) raises
    the same error. *)
Theorem X13_unknown_key_is_rejected :
  (forall m sm k v,
     dict_get "camera" m = YMap sm ->
     In (YStr k, v) sm ->
     existsb (String.eqb k) camera_fields = false ->
     m <> [] ->
     load (Content (YMap m)) = inl TypeError) /\
  (forall m y,
     dict_get "camera" m = y ->
     (forall sm, y <> YMap sm) ->
     m <> [] ->
     load (Content (YMap m)) = inl TypeError).
Proof.
  split.
  - intros m sm k v Hc Hin Hk Hne. unfold load.
    destruct m as [|e m']; [contradiction|]. cbn [truthy].
    rewrite Hc.
    rewrite (@construct_rejects _ camera_fields CameraConfig_kw sm k v Hin Hk).
    reflexivity.
  - intros m y Hc Hy Hne. unfold load.
    destruct m as [|e m']; [contradiction|]. cbn [truthy].
    rewrite Hc. destruct y; try reflexivity.
    exfalso. eapply Hy. reflexivity.
Qed.

Lemma X13_unknown_key_witness :
  load (Content (YMap [(YStr "camera", YMap [(YStr "widht", YInt 800)])]))
  = inl TypeError.
Proof.
  apply (proj1 X13_unknown_key_is_rejected
           [(YStr "camera", YMap [(YStr "widht", YInt 800)])]
           [(YStr "widht", YInt 800)] "widht"%string (YInt 800)).
  - reflexivity.
  - left. reflexivity.
  - reflexivity.
  - discriminate.
Defined.

(** X14.  [get_settings] loads once.  After a call that returned settings,
    every later call returns the same settings whatever path it is given
    and whatever the files have become; a call whose load raised leaves
    nothing cached, so the next call loads again; and after
    [reset_settings] the next call loads again. *)
Theorem X14_settings_are_cached :
  (forall fs1 p1 st0 s st1,
     get_settings fs1 p1 st0 = (inr s, st1) ->
     forall fs2 p2, get_settings fs2 p2 st1 = (inr s, st1)) /\
  (forall fs p e st1,
     get_settings fs p None = (inl e, st1) -> st1 = None) /\
  (forall fs p st0,
     get_settings fs p (reset_settings st0)
     = match load (fs p) with
       | inr s => (inr s, Some s)
       | inl e => (inl e, None)
       end).
Proof.
  repeat split.
  - intros fs1 p1 st0 s st1 H fs2 p2. unfold get_settings in *.
    destruct st0 as [s0|].
    + inversion H; subst. reflexivity.
    + destruct (load (fs1 p1)); inversion H; subst. reflexivity.
  - intros fs p e st1 H. unfold get_settings in H.
    destruct (load (fs p)); inversion H; reflexivity.
Qed.

Lemma X14_settings_cached_witness :
  get_settings (fun _ => Malformed) "other.yaml"
    (snd (get_settings (fun _ => Absent) "config.yaml" None))
  = (inr defaults, Some defaults).
Proof.
  apply (proj1 X14_settings_are_cached (fun _ => Absent) "config.yaml"%string
           None).
  reflexivity.
Defined.

End SettingsFacts.

(** ** The counter, the window and the rate *)

Lemma fps_update_nonneg (w : list Q) (old : Q) :
  (0 <= old)%Q -> (0 <= fps_update w old)%Q.
Proof.
  intros Hold. unfold fps_update.
  destruct (2 <=? Z.of_nat (length w)) eqn:E; [|exact Hold].
  destruct (Qpositive (last w 0 - hd 0 w)%Q) eqn:P; [|exact Hold].
  apply Z.leb_le in E. apply Qpositive_iff in P.
  unfold Qdiv. apply Qmult_le_0_compat.
  - change 0%Q with (inject_Z 0). rewrite <- Zle_Qle. lia.
  - apply Qinv_le_0_compat. apply Qlt_le_weak. exact P.
Qed.

(** X15.  The measured rate is never negative, whatever the clock does
    (also when it stands still or steps back between reads), in every
    sequence of calls on a device whose rate was not negative to begin
    with, as that of a new device is. *)
Theorem X15_rate_never_negative :
  (forall (ops : list (op USBCamera.st)) (s : USBCamera.st),
     (0 <= USBCamera.fps (fst s))%Q ->
     (0 <= USBCamera.fps (fst (run ops s)))%Q) /\
  (forall (ops : list (op PiCamera.st)) (s : PiCamera.st),
     (0 <= PiCamera.fps (fst s))%Q ->
     (0 <= PiCamera.fps (fst (run ops s)))%Q).
Proof.
  split.
  - induction ops as [|o ops IH]; intros s H; simpl; [exact H|].
    apply IH. destruct o as [e|e|r]; simpl.
    + destruct (USBFacts.usb_open_tracking e s) as [Hf _].
      unfold USBCamera.fps. rewrite Hf. exact H.
    + destruct (USBFacts.usb_read_state e s) as [Hn|[a [_ [_ Hs]]]].
      * rewrite Hn. exact H.
      * rewrite Hs. unfold USBCamera.fps. simpl.
        apply fps_update_nonneg. exact H.
    + destruct (USBFacts.usb_close_facts r s) as [_ [_ [_ [_ [Hf _]]]]].
      unfold USBCamera.fps. rewrite Hf. exact H.
  - induction ops as [|o ops IH]; intros s H; simpl; [exact H|].
    apply IH. destruct o as [e|e|e]; simpl.
    + destruct (PiFacts.pi_open_tracking e s) as [Hf _].
      unfold PiCamera.fps. rewrite Hf. exact H.
    + destruct (PiFacts.pi_read_facts e s)
        as [Hn|[a [b [f [_ [_ [_ [_ Hs]]]]]]]].
      * rewrite Hn. exact H.
      * rewrite Hs. unfold PiCamera.fps. simpl.
        apply fps_update_nonneg. exact H.
    + destruct (PiFacts.pi_close_facts e s) as [_ [_ [_ [_ [Hf _]]]]].
      unfold PiCamera.fps. rewrite Hf. exact H.
Qed.

Lemma X15_rate_witness :
  (0 <= USBCamera.fps (fst (run usb_epoch_then_reopen usb0)))%Q.
Proof.
  apply (proj1 X15_rate_never_negative usb_epoch_then_reopen usb0).
  vm_compute. discriminate.
Defined.

Lemma lastn_snoc_length {A} (n : nat) (l : list A) (x : A) :
  length (lastn n (l ++ [x])) = Nat.min (length l + 1) n.
Proof.
  unfold lastn. rewrite length_skipn, length_app. simpl. lia.
Qed.

(** X16.  The window always holds exactly as many timestamps as were
    counted in the epoch, up to its capacity: on a device built with the
    capacity of 30, the length of the window equals the smaller of the
    sequence counter and 30 after every sequence of calls.  In particular
    the counter is never negative. *)
Theorem X16_window_length_follows_counter :
  (forall (ops : list (op USBCamera.st)) (s : USBCamera.st),
     USBCamera._fps_window (fst s) = 30 ->
     Z.of_nat (length (USBCamera._frame_times (fst s)))
     = Z.min (USBCamera._sequence (fst s)) 30 ->
     Z.of_nat (length (USBCamera._frame_times (fst (run ops s))))
     = Z.min (USBCamera._sequence (fst (run ops s))) 30 /\
     0 <= USBCamera._sequence (fst (run ops s))) /\
  (forall (ops : list (op PiCamera.st)) (s : PiCamera.st),
     PiCamera._fps_window (fst s) = 30 ->
     Z.of_nat (length (PiCamera._frame_times (fst s)))
     = Z.min (PiCamera._sequence (fst s)) 30 ->
     Z.of_nat (length (PiCamera._frame_times (fst (run ops s))))
     = Z.min (PiCamera._sequence (fst (run ops s))) 30 /\
     0 <= PiCamera._sequence (fst (run ops s))).
Proof.
  split.
  - induction ops as [|o ops IH]; intros s Hw H; simpl; [split; [exact H|lia]|].
    assert (Hw' := f_equal snd (usb_exec_config o s)). simpl in Hw'.
    apply IH; [congruence|]. clear IH. destruct o as [e|e|r]; simpl in *.
    + destruct (USBFacts.usb_open_tracking e s) as [_ [_ [Ht Hf]]].
      destruct (USBFacts.usb_open_result e s) as [Hr|Hr].
      * destruct (Ht Hr) as [Hq Hx]. rewrite Hq, Hx. reflexivity.
      * destruct (Hf Hr) as [Hq Hx]. rewrite Hq, Hx. exact H.
    + destruct (USBFacts.usb_read_state e s) as [Hn|[a [_ [_ Hs]]]].
      * rewrite Hn. exact H.
      * rewrite Hs. simpl. rewrite Hw.
        rewrite (window_push_lastn (n:=30)) by lia.
        rewrite lastn_snoc_length. lia.
    + destruct (USBFacts.usb_close_facts r s) as [_ [_ [Hq [Hx _]]]].
      rewrite Hq, Hx. exact H.
  - induction ops as [|o ops IH]; intros s Hw H; simpl; [split; [exact H|lia]|].
    assert (Hw' := f_equal snd (pi_exec_config o s)). simpl in Hw'.
    apply IH; [congruence|]. clear IH. destruct o as [e|e|e]; simpl in *.
    + destruct (PiFacts.pi_open_tracking e s) as [_ [_ [Ht Hf]]].
      destruct (PiFacts.pi_open_result e s) as [Hr|Hr].
      * destruct (Ht Hr) as [Hq [Hx _]]. rewrite Hq, Hx. reflexivity.
      * destruct (Hf Hr) as [Hq Hx]. rewrite Hq, Hx. exact H.
    + destruct (PiFacts.pi_read_facts e s)
        as [Hn|[a [b [f [_ [_ [_ [_ Hs]]]]]]]].
      * rewrite Hn. exact H.
      * rewrite Hs. simpl. rewrite Hw.
        rewrite (window_push_lastn (n:=30)) by lia.
        rewrite lastn_snoc_length. lia.
    + destruct (PiFacts.pi_close_facts e s) as [_ [_ [Hq [Hx _]]]].
      rewrite Hq, Hx. exact H.
Qed.

Lemma X16_window_length_witness :
  Z.of_nat (length (USBCamera._frame_times
                      (fst (run usb_three_reads_closed usb0))))
  = Z.min (USBCamera._sequence (fst (run usb_three_reads_closed usb0))) 30.
Proof.
  apply (proj1 X16_window_length_follows_counter usb_three_reads_closed usb0);
    reflexivity.
Defined.

(** ** The periodic rate report of the supervisor *)

(** X18.  The rate reports of [main()] account for every frame exactly
    once: the frames of all reports emitted plus the frames counted since
    the last report equal the frames read.  Every report covers at least
    the reporting interval of 10 seconds, so its rate is its frame count
    divided by its elapsed time (the fallback to 0 for an elapsed time that
    is not positive is never taken). *)
Theorem X18_reports_account_for_frames :
  forall (nows : list Q) (st : Z * Q),
    total_frames (fst (on_frames st nows)) + fst (snd (on_frames st nows))
    = fst st + Z.of_nat (length nows) /\
    Forall (fun r => (10 <= rep_elapsed r)%Q /\
                     rep_measured r
                     = (inject_Z (rep_frames r) / rep_elapsed r)%Q)
           (fst (on_frames st nows)).
Proof.
  induction nows as [|now nows IH]; intros st.
  - simpl. split; [lia | constructor].
  - cbn [on_frames]. unfold on_frame.
    destruct (Qle_bool fps_report_interval (now - snd st)) eqn:E.
    + specialize (IH (0, now)).
      destruct (on_frames (0, now) nows) as [rs st2]. simpl in *.
      destruct IH as [Hsum Hall]. split; [unfold total_frames in *; simpl; lia|].
      constructor; [|exact Hall]. simpl.
      apply Qle_bool_iff in E. split; [exact E|].
      assert (Hpos : (0 < now - snd st)%Q).
      { eapply Qlt_le_trans; [|exact E]. reflexivity. }
      apply Qpositive_iff in Hpos. rewrite Hpos. reflexivity.
    + specialize (IH (fst st + 1, snd st)).
      destruct (on_frames (fst st + 1, snd st) nows) as [rs st2]. simpl in *.
      destruct IH as [Hsum Hall]. split; [lia | exact Hall].
Qed.

(** ** The channel reversal of the integrated backend *)

Lemma chunks_fuel_concat (n : nat) (ls : list (list Z)) :
  (0 < n)%nat ->
  Forall (fun x => length x = n) ls ->
  forall fuel, (length ls <= fuel)%nat ->
  chunks_fuel fuel n (concat ls) = ls.
Proof.
  intros Hn Hall. induction Hall as [|x ls Hx Hall IH]; intros fuel Hf.
  - simpl. destruct fuel; reflexivity.
  - destruct fuel as [|fuel]; [simpl in Hf; lia|]. simpl in Hf.
    cbn [concat chunks_fuel].
    destruct (x ++ concat ls) as [|z zs] eqn:E.
    + apply (f_equal (@length Z)) in E. rewrite length_app in E. simpl in E. lia.
    + rewrite <- E. rewrite <- Hx at 1 3.
      rewrite firstn_app, Nat.sub_diag, firstn_all. simpl. rewrite app_nil_r.
      rewrite skipn_app, Nat.sub_diag, skipn_all. simpl.
      rewrite IH by lia. reflexivity.
Qed.

Lemma chunks_fuel_flat (n : nat) :
  (0 < n)%nat ->
  forall fuel l, (length l <= fuel)%nat -> concat (chunks_fuel fuel n l) = l.
Proof.
  intros Hn. induction fuel as [|fuel IH]; intros l Hl.
  - destruct l; [reflexivity | simpl in Hl; lia].
  - destruct l as [|z zs]; [reflexivity|].
    cbn [chunks_fuel concat]. rewrite IH.
    + apply firstn_skipn.
    + rewrite length_skipn. cbn [length] in *. lia.
Qed.

Lemma chunks_fuel_even (n : nat) :
  forall fuel l k, length l = (k * n)%nat ->
  Forall (fun x => length x = n) (chunks_fuel fuel n l).
Proof.
  induction fuel as [|fuel IH]; intros l k Hl; [constructor|].
  destruct l as [|z zs]; [constructor|].
  cbn [chunks_fuel]. destruct k as [|k]; [simpl in Hl; discriminate|].
  constructor.
  - rewrite length_firstn. cbn [length Nat.mul] in Hl |- *. lia.
  - apply (IH _ k). rewrite length_skipn. cbn [length Nat.mul] in Hl |- *. lia.
Qed.

Lemma concat_even_length (n : nat) (ls : list (list Z)) :
  Forall (fun x => length x = n) ls -> length (concat ls) = (length ls * n)%nat.
Proof.
  induction 1 as [|x ls Hx _ IH]; [reflexivity|].
  simpl. rewrite length_app, IH, Hx. reflexivity.
Qed.

Lemma rev_blocks_length (b k : nat) (g : list Z) :
  length g = (k * b)%nat ->
  length (concat (rev (chunks b g))) = length g.
Proof.
  intros Hg.
  destruct (Nat.eq_dec b 0) as [->|Hb].
  - rewrite Nat.mul_0_r in Hg. destruct g; [reflexivity|discriminate].
  - assert (Hall := chunks_fuel_even b (length g) g k Hg).
    fold (chunks b g) in Hall.
    rewrite (@concat_even_length b) by (apply Forall_rev; exact Hall).
    rewrite length_rev, <- (@concat_even_length b) by exact Hall.
    unfold chunks. rewrite chunks_fuel_flat by lia. reflexivity.
Qed.

(** Reversing the blocks of one group twice gives the group back. *)
Lemma rev_blocks_twice (b k : nat) (g : list Z) :
  length g = (k * b)%nat ->
  concat (rev (chunks b (concat (rev (chunks b g))))) = g.
Proof.
  intros Hg.
  destruct (Nat.eq_dec b 0) as [->|Hb].
  - rewrite Nat.mul_0_r in Hg. destruct g; [reflexivity|discriminate].
  - assert (Hall := chunks_fuel_even b (length g) g k Hg).
    fold (chunks b g) in Hall.
    unfold chunks at 1.
    rewrite chunks_fuel_concat; try lia.
    + rewrite rev_involutive. unfold chunks. apply chunks_fuel_flat; lia.
    + apply Forall_rev. exact Hall.
    + rewrite (@concat_even_length b) by (apply Forall_rev; exact Hall).
      rewrite length_rev. nia.
Qed.

Lemma reverse_axis2_round_trip (a b : ndarray) :
  shaped a = true -> reverse_axis2 a = Ret b ->
  shaped b = true /\ reverse_axis2 b = Ret a.
Proof.
  destruct a as [sh fl]. unfold shaped, reverse_axis2. simpl.
  destruct sh as [|h [|w [|c rest]]]; try discriminate.
  intros Hs Hb. injection Hb as <-. simpl.
  apply Nat.eqb_eq in Hs. simpl in Hs.
  set (blk := fold_right Nat.mul 1%nat rest) in *.
  set (f := fun g => concat (rev (chunks blk g))).
  assert (Hlen : length fl = ((h * w) * (c * blk))%nat) by lia.
  assert (Hall : Forall (fun x => length x = (c * blk)%nat) (chunks (c * blk) fl))
    by (apply (@chunks_fuel_even _ _ _ (h * w)%nat); exact Hlen).
  assert (Hall' : Forall (fun x => length x = (c * blk)%nat)
                         (map f (chunks (c * blk) fl))).
  { apply Forall_map. eapply Forall_impl; [|exact Hall].
    intros g Hg. simpl. unfold f. rewrite (@rev_blocks_length blk c); assumption. }
  destruct (Nat.eq_dec (c * blk) 0) as [Hz|Hnz].
  - rewrite Hz, Nat.mul_0_r in Hlen. destruct fl; [|discriminate].
    split; [apply Nat.eqb_eq; simpl; lia | reflexivity].
  - assert (Hflat' : length (concat (map f (chunks (c * blk) fl))) = length fl).
    { rewrite (@concat_even_length (c * blk)) by exact Hall'.
      rewrite length_map, <- (@concat_even_length (c * blk)) by exact Hall.
      unfold chunks. rewrite chunks_fuel_flat by lia. reflexivity. }
    split.
    + apply Nat.eqb_eq. simpl. fold blk. lia.
    + f_equal. f_equal.
      unfold chunks at 1.
      rewrite chunks_fuel_concat; try lia; try exact Hall'.
      * rewrite map_map.
        transitivity (concat (map (fun g => g) (chunks (c * blk) fl))).
        { f_equal. apply map_ext_in. intros g Hg.
          rewrite Forall_forall in Hall. unfold f.
          apply (@rev_blocks_twice blk c). apply Hall. exact Hg. }
        rewrite map_id. unfold chunks. apply chunks_fuel_flat; lia.
      * rewrite Hflat'. rewrite length_map.
        rewrite <- (@chunks_fuel_flat (c * blk)) with (fuel := length fl) (l := fl) at 2 by lia.
        fold (chunks (c * blk) fl).
        rewrite (@concat_even_length (c * blk)) by exact Hall. nia.
Qed.

Lemma chunks_one (g : list Z) : chunks 1 g = map (fun x => [x]) g.
Proof.
  unfold chunks. induction g as [|z zs IH]; [reflexivity|].
  cbn [length chunks_fuel map]. simpl firstn. simpl skipn. rewrite IH. reflexivity.
Qed.

Lemma concat_singletons (g : list Z) : concat (map (fun x => [x]) g) = g.
Proof. induction g as [|z zs IH]; [reflexivity|]. simpl. rewrite IH. reflexivity. Qed.

Lemma nth_concat_even (n : nat) (ls : list (list Z)) :
  Forall (fun x => length x = n) ls ->
  forall p j, (j < n)%nat ->
  nth (p * n + j) (concat ls) 0 = nth j (nth p ls []) 0.
Proof.
  induction 1 as [|x ls Hx _ IH]; intros p j Hj.
  - cbn [concat]. destruct (p * n + j)%nat, p, j; reflexivity.
  - destruct p as [|p]; cbn [concat nth].
    + simpl. apply app_nth1. lia.
    + rewrite app_nth2 by (cbn [Nat.mul]; lia).
      replace (S p * n + j - length x)%nat with (p * n + j)%nat
        by (cbn [Nat.mul]; lia).
      apply IH. exact Hj.
Qed.

(** The channel reversal on an array with exactly three axes, element by
    element. *)
Lemma reverse_axis2_pixels (a b : ndarray) (h w c : nat) :
  shape a = [h; w; c]%nat -> shaped a = true -> reverse_axis2 a = Ret b ->
  forall p j, (p < h * w)%nat -> (j < c)%nat ->
  nth (p * c + j) (flat b) 0 = nth (p * c + (c - 1 - j)) (flat a) 0.
Proof.
  destruct a as [sh fl]. unfold shaped, reverse_axis2. simpl.
  intros -> Hs Hb p j Hp Hj. injection Hb as <-. simpl.
  apply Nat.eqb_eq in Hs. simpl in Hs.
  rewrite Nat.mul_1_r in *.
  assert (Hlen : length fl = ((h * w) * c)%nat) by lia.
  assert (Hall : Forall (fun x => length x = c) (chunks c fl))
    by (apply (@chunks_fuel_even _ _ _ (h * w)%nat); exact Hlen).
  assert (Hfl : concat (chunks c fl) = fl)
    by (unfold chunks; apply chunks_fuel_flat; lia).
  assert (Hn : length (chunks c fl) = (h * w)%nat).
  { apply (f_equal (@length Z)) in Hfl.
    rewrite (@concat_even_length c) in Hfl by exact Hall. nia. }
  rewrite (map_ext (fun g => concat (rev (chunks 1 g))) (@rev Z)).
  2:{ intros g. rewrite chunks_one, <- map_rev. apply concat_singletons. }
  rewrite <- Hfl at 2.
  assert (Hrev : Forall (fun x => length x = c) (map (@rev Z) (chunks c fl))).
  { apply Forall_map. eapply Forall_impl; [|exact Hall].
    intros g Hg. simpl. rewrite length_rev. exact Hg. }
  rewrite (@nth_concat_even c _ Hrev) by lia.
  rewrite (@nth_concat_even c _ Hall) by lia.
  change (@nil Z) with (rev (@nil Z)) at 1. rewrite map_nth.
  assert (Hg : length (nth p (chunks c fl) []) = c).
  { rewrite Forall_forall in Hall. apply Hall. apply nth_In. lia. }
  rewrite rev_nth by lia. rewrite Hg. f_equal. lia.
Qed.

Lemma pi_read_frame (e : PiCamera.read_env) (s : PiCamera.st) (f : Frame.t)
      (a : ndarray) :
  PiCamera.r_capture_array e = Ret a ->
  fst (PiCamera.read e s) = Ret (Some f) ->
  reverse_axis2 a = Ret (Frame.data f) /\
  Frame.height f = nth 0 (shape a) 0%nat /\
  Frame.width f = nth 1 (shape a) 0%nat.
Proof.
  intros Ha Hr.
  destruct (PiFacts.pi_read_facts e s) as [H|(rgb & bgr & f' & H1 & H2 & _ & H4 & H5)].
  - rewrite H in Hr. discriminate.
  - rewrite H5 in Hr. simpl in Hr. injection Hr as <-.
    rewrite Ha in H1. injection H1 as <-.
    pose proof (USBFacts.create_facts bgr (PiCamera._sequence (fst s) + 1) None
                  (PiCamera.r_now e)) as Hf.
    rewrite H4 in Hf. destruct Hf as (Hd & _ & _ & Hh & Hw).
    destruct (PiFacts.reverse_axis2_shape _ H2) as [Hsh _].
    rewrite Hd, Hh, Hw, Hsh. auto.
Qed.

(** X19.  A frame the integrated backend returns holds the captured
    array with the order of the channels of every pixel reversed, and
    nothing else changed: for a capture of shape (h, w, c) that fills its
    shape, the frame has height h and width w, its data has the same shape
    and the same number of elements, and channel j of pixel p of the frame
    is channel c-1-j of pixel p of the capture. *)
Theorem X19_pi_frame_channels_reversed
        (e : PiCamera.read_env) (s : PiCamera.st) (f : Frame.t)
        (a : ndarray) (h w c : nat) :
  PiCamera.r_capture_array e = Ret a ->
  shape a = [h; w; c]%nat -> shaped a = true ->
  fst (PiCamera.read e s) = Ret (Some f) ->
  Frame.height f = h /\ Frame.width f = w /\
  shape (Frame.data f) = [h; w; c]%nat /\
  length (flat (Frame.data f)) = (h * w * c)%nat /\
  forall p j, (p < h * w)%nat -> (j < c)%nat ->
    nth (p * c + j) (flat (Frame.data f)) 0
    = nth (p * c + (c - 1 - j)) (flat a) 0.
Proof.
  intros Ha Hsh Hs Hr.
  destruct (pi_read_frame e s Ha Hr) as (Hrev & Hh & Hw).
  rewrite Hsh in Hh, Hw. simpl in Hh, Hw.
  destruct (PiFacts.reverse_axis2_shape _ Hrev) as [Hshape _].
  destruct (reverse_axis2_round_trip a Hs Hrev) as [Hsb _].
  repeat split; try assumption.
  - congruence.
  - unfold shaped in Hsb. apply Nat.eqb_eq in Hsb.
    rewrite Hsb, Hshape, Hsh. simpl. lia.
  - apply reverse_axis2_pixels; assumption.
Qed.

Lemma X19_pi_frame_channels_witness :
  exists f,
    fst (PiCamera.read (pi_read_at 0) (snd (PiCamera.open pi_open_ok pi0)))
    = Ret (Some f) /\
    nth (4 * 3 + 0) (flat (Frame.data f)) 0 = nth (4 * 3 + (3 - 1 - 0)) (flat image_2x3) 0.
Proof.
  eexists. split; [vm_compute; reflexivity|].
  refine (proj2 (proj2 (proj2 (proj2
    (@X19_pi_frame_channels_reversed (pi_read_at 0)
       (snd (PiCamera.open pi_open_ok pi0)) _ image_2x3 2 3 3
       eq_refl eq_refl eq_refl _)))) 4%nat 0%nat _ _).
  - vm_compute. reflexivity.
  - vm_compute. lia.
  - lia.
Defined.

(** X20.  The channel reversal of the integrated backend loses
    nothing: for a captured array that fills its shape (of any number of
    axes that [read()] accepts), the data of the returned frame fills the
    same shape, and reversing its channels once more gives back exactly the
    array that was captured. *)
Theorem X20_pi_frame_keeps_capture
        (e : PiCamera.read_env) (s : PiCamera.st) (f : Frame.t) (a : ndarray) :
  PiCamera.r_capture_array e = Ret a ->
  shaped a = true ->
  fst (PiCamera.read e s) = Ret (Some f) ->
  shaped (Frame.data f) = true /\ reverse_axis2 (Frame.data f) = Ret a.
Proof.
  intros Ha Hs Hr.
  destruct (pi_read_frame e s Ha Hr) as (Hrev & _).
  exact (reverse_axis2_round_trip a Hs Hrev).
Qed.

Lemma X20_pi_frame_keeps_capture_witness :
  exists f,
    fst (PiCamera.read (pi_read_at 0) (snd (PiCamera.open pi_open_ok pi0)))
    = Ret (Some f) /\
    reverse_axis2 (Frame.data f) = Ret image_2x3.
Proof.
  eexists. split; [vm_compute; reflexivity|].
  refine (proj2 (@X20_pi_frame_keeps_capture (pi_read_at 0)
       (snd (PiCamera.open pi_open_ok pi0)) _ image_2x3 eq_refl eq_refl _)).
  vm_compute. reflexivity.
Defined.
